(** * A shallow embedding of the MicroPython MQTT client (src/mqtt.py)

    The client is a single Python class.  Its methods mutate the instance
    and talk to a socket, and any of them can raise while leaving the
    mutations made so far in place.  The embedding therefore threads the
    instance through a small state-and-exception monad: a computation takes
    the client and gives back an outcome (a value or a raised exception)
    together with the client as it was left.

    Bytes are [Byte.byte]; Python integers are [Z] with the bit operations
    of [Z] (which agree with Python's on negative numbers as well); a Python
    [str] is a [string] read as the sequence of its UTF-8 code units, which
    is how MicroPython stores it, so that [encode('utf8')] exposes those
    bytes and [str(b, 'utf8')] wraps them. *)

From Stdlib Require Import ZArith List String Ascii Bool Lia.
From Stdlib Require Import Strings.Byte.
Import ListNotations.

Local Open Scope Z_scope.

(** ** Python values used by the client *)

Definition bytes := list byte.

Inductive pyval :=
| PyNone
| PyInt (n : Z)
| PyBytes (b : bytes)
| PyStr (s : string).

Inductive exn :=
| AssertionError
| ValueError
| IndexError
| NameError
| OverflowError
| TypeError
| AttributeError
| OSError
| PyException (msg : string).

(** Iterating over a bytes object yields ints in [range(256)]. *)
Definition byte_val (b : byte) : Z := Z.of_N (Byte.to_N b).

(** One element of [bytes((x,))] or of a bytearray store: an int outside
    [range(256)] is a ValueError, signalled by [None]. *)
Definition mk_byte (x : Z) : option byte :=
  if (0 <=? x) && (x <? 256) then Byte.of_N (Z.to_N x) else None.

(** [int.from_bytes(b, 'big')] *)
Definition int_from_bytes (b : bytes) : Z :=
  fold_left (fun acc x => acc * 256 + byte_val x) b 0.

(** The [len] big-endian digits of [n] in base 256, without any range
    check. *)
Fixpoint be_digits (len : nat) (n : Z) : list Z :=
  match len with
  | O => []
  | S len' => be_digits len' (n / 256) ++ [n mod 256]
  end.

Fixpoint mk_bytes (xs : list Z) : option bytes :=
  match xs with
  | [] => Some []
  | x :: xs' =>
      match mk_byte x, mk_bytes xs' with
      | Some b, Some bs => Some (b :: bs)
      | _, _ => None
      end
  end.

(** [n.to_bytes(len, 'big')]: [None] stands for OverflowError, raised when
    [n] is negative or does not fit in [len] bytes. *)
Definition int_to_bytes (n : Z) (len : nat) : option bytes :=
  if (0 <=? n) && (n <? 256 ^ Z.of_nat len) then mk_bytes (be_digits len n)
  else None.

(** [n.to_bytes(len, 'little')] *)
Definition int_to_bytes_little (n : Z) (len : nat) : option bytes :=
  option_map (@rev byte) (int_to_bytes n len).

(** [s.encode('utf8')] and [str(b, 'utf8')] *)
Definition encode_utf8 (s : string) : bytes := list_byte_of_string s.
Definition decode_utf8 (b : bytes) : string := string_of_list_byte b.

(** Python truthiness of an int. *)
Definition truthy (n : Z) : bool := negb (n =? 0).

(** ** Control packet types *)

Definition P_CONNECT : Z := 1.
Definition P_CONNACK : Z := 2.
Definition P_PUBLISH : Z := 3.
Definition P_PUBACK : Z := 4.
Definition P_PUBREC : Z := 5.
Definition P_PUBREL : Z := 6.
Definition P_PUBCOMP : Z := 7.
Definition P_SUBSCRIBE : Z := 8.
Definition P_SUBACK : Z := 9.
Definition P_UNSUBSCRIBE : Z := 10.
Definition P_UNSUBACK : Z := 11.
Definition P_PINGREQ : Z := 12.
Definition P_PINGRESP : Z := 13.
Definition P_DISCONNECT : Z := 14.

(** The namedtuple [Message].  [qos] and [retain] are the ints the read
    loop extracts from the fixed header; Python's [False] is the int 0. *)
Record Message := mkMessage {
  topic : string;
  payload : string;
  qos : Z;
  retain : Z
}.

(** ** The client and its surroundings *)

(** What the caller-supplied [on_message] does when called: it returns,
    having printed some lines, or it raises.  Its return value is ignored
    by the read loop. *)
Inductive cb_result :=
| CbReturn (printed : list (list pyval))
| CbRaise (e : exn).

(** The connected socket as the client sees it during one call: the bytes
    the broker has sent and that were not read yet, and whether the broker
    closed its side.  [recv(n)] hands over the first [n] of those bytes. *)
Record Socket := mkSocket {
  inbound : bytes;
  peer_closed : bool
}.

(** What an execution does to the outside, in order. *)
Inductive event :=
| EvOpen (host : string) (port : Z)
| EvClose
| EvSend (data : bytes)
| EvPrint (args : list pyval)
| EvCallback (msg : Message).

(** An entry of [_pub_queue]: [(packet_id, flags, payload)]. *)
Definition InFlight := (Z * Z * bytes)%type.

(** The instance attributes.  [host], [port] and [keepalive] do not exist
    until [connect] has stored them.  [userdata] is only ever handed to
    [on_message], which is represented by what it does, so it is left
    out.  [trace] is not an attribute: it records the effects on the
    outside. *)
Record Client := mkClient {
  client_id : string;
  clean_session : bool;
  sock : option Socket;
  _size_buf : bytes;
  _packet_id : Z;
  connected : bool;
  on_message : Message -> cb_result;
  _pub_queue : list InFlight;
  host : option string;
  port : option Z;
  keepalive : option Z;
  trace : list event
}.

Definition set_sock (s : option Socket) (c : Client) : Client :=
  mkClient (client_id c) (clean_session c) s (_size_buf c) (_packet_id c)
    (connected c) (on_message c) (_pub_queue c) (host c) (port c)
    (keepalive c) (trace c).

Definition set_size_buf (b : bytes) (c : Client) : Client :=
  mkClient (client_id c) (clean_session c) (sock c) b (_packet_id c)
    (connected c) (on_message c) (_pub_queue c) (host c) (port c)
    (keepalive c) (trace c).

Definition set_packet_id (n : Z) (c : Client) : Client :=
  mkClient (client_id c) (clean_session c) (sock c) (_size_buf c) n
    (connected c) (on_message c) (_pub_queue c) (host c) (port c)
    (keepalive c) (trace c).

Definition set_connected (b : bool) (c : Client) : Client :=
  mkClient (client_id c) (clean_session c) (sock c) (_size_buf c)
    (_packet_id c) b (on_message c) (_pub_queue c) (host c) (port c)
    (keepalive c) (trace c).

Definition set_pub_queue (q : list InFlight) (c : Client) : Client :=
  mkClient (client_id c) (clean_session c) (sock c) (_size_buf c)
    (_packet_id c) (connected c) (on_message c) q (host c) (port c)
    (keepalive c) (trace c).

Definition set_target (h : string) (p k : Z) (c : Client) : Client :=
  mkClient (client_id c) (clean_session c) (sock c) (_size_buf c)
    (_packet_id c) (connected c) (on_message c) (_pub_queue c) (Some h)
    (Some p) (Some k) (trace c).

Definition add_event (e : event) (c : Client) : Client :=
  mkClient (client_id c) (clean_session c) (sock c) (_size_buf c)
    (_packet_id c) (connected c) (on_message c) (_pub_queue c) (host c)
    (port c) (keepalive c) (trace c ++ [e]).

(** The default [on_message] prints topic and payload. *)
Definition default_on_message (msg : Message) : cb_result :=
  CbReturn [[PyStr (topic msg); PyStr (payload msg)]].

(** [Client.__init__] *)
Definition new_client (cid : string) (clean : bool) : Client :=
  mkClient cid clean None (repeat x00%byte 4) 1 false default_on_message
    [] None None None [].

(** ** The monad: state that survives exceptions *)

Inductive outcome (A : Type) :=
| Val (a : A)
| Exn (e : exn).
Arguments Val {A} a.
Arguments Exn {A} e.

Definition M (A : Type) : Type := Client -> outcome A * Client.

Definition ret {A} (a : A) : M A := fun c => (Val a, c).
Definition raise {A} (e : exn) : M A := fun c => (Exn e, c).
Definition bind {A B} (m : M A) (k : A -> M B) : M B :=
  fun c => match m c with
           | (Val a, c') => k a c'
           | (Exn e, c') => (Exn e, c')
           end.
Definition get : M Client := fun c => (Val c, c).
Definition modify (f : Client -> Client) : M unit := fun c => (Val tt, f c).

Notation "x <- m ;; k" := (bind m (fun x => k))
  (at level 61, m at next level, right associativity).
Notation "m ;; k" := (bind m (fun _ => k))
  (at level 61, right associativity).
Notation "' p <- m ;; k" := (bind m (fun x => match x with p => k end))
  (at level 61, p pattern, m at next level, right associativity).

(** Lifts a partial primitive, raising [e] where it is undefined. *)
Definition lift {A} (e : exn) (o : option A) : M A :=
  match o with Some a => ret a | None => raise e end.

(** [assert b] *)
Definition py_assert (b : bool) : M unit :=
  if b then ret tt else raise AssertionError.

(** ** The socket *)

(** Looking up a method of [self.sock]: an AttributeError while [sock] is
    still [None]. *)
Definition the_sock : M Socket :=
  c <- get ;; lift AttributeError (sock c).

(** [self.sock.recv(n)]: the first [n] pending bytes; an empty result once
    the broker has closed; a timeout, OSError, when nothing is pending on an
    open connection. *)
Definition sock_recv (n : Z) : M bytes :=
  s <- the_sock ;;
  match inbound s with
  | [] => if peer_closed s then ret [] else raise OSError
  | _ =>
      modify (set_sock (Some (mkSocket (skipn (Z.to_nat n) (inbound s))
                                       (peer_closed s)))) ;;
      ret (firstn (Z.to_nat n) (inbound s))
  end.

(** [self.sock.sendall(data)] *)
Definition sock_sendall (data : bytes) : M unit :=
  modify (add_event (EvSend data)).

(** [x, = b]: unpacking a bytes object of any other length than one is a
    ValueError. *)
Definition unpack1 (b : bytes) : M Z :=
  match b with
  | [x] => ret (byte_val x)
  | _ => raise ValueError
  end.

(** [x, y, z = b] *)
Definition unpack3 (b : bytes) : M (Z * Z * Z) :=
  match b with
  | [x; y; z] => ret (byte_val x, byte_val y, byte_val z)
  | _ => raise ValueError
  end.

(** [self.poll.poll(ms)] is non-empty when the registered socket is
    readable: bytes are pending or the broker closed. *)
Definition poll_ready (c : Client) : bool :=
  match sock c with
  | Some s => negb (Nat.eqb (List.length (inbound s)) 0) || peer_closed s
  | None => false
  end.

(** ** Client.remaining_len *)

(** [self._size_buf[i] = v] *)
Definition size_buf_store (i : nat) (v : Z) : M unit :=
  c <- get ;;
  if Nat.ltb i (List.length (_size_buf c)) then
    b <- lift ValueError (mk_byte v) ;;
    modify (set_size_buf (firstn i (_size_buf c) ++ b :: skipn (S i) (_size_buf c)))
  else raise IndexError.

(** [self._size_buf[i]] *)
Definition size_buf_load (i : nat) : M Z :=
  c <- get ;;
  lift IndexError (option_map byte_val (nth_error (_size_buf c) i)).

(** The [while True] loop of [remaining_len] at index [i].  [room] counts
    the slots of the 4-byte buffer after [i]: when none is left and the loop
    goes on, the store of the next round is out of range. *)
Fixpoint remaining_len_loop (room : nat) (i : nat) (size : Z) : M nat :=
  let _byte := Z.land size 127 in
  let size := Z.shiftr size 7 in
  size_buf_store i _byte ;;
  if 0 <? size then
    old <- size_buf_load i ;;
    size_buf_store i (Z.lor old 128) ;;
    match room with
    | S room' => remaining_len_loop room' (S i) size
    | O => raise IndexError
    end
  else ret i.

Definition MAX_REMAINING : Z := Z.shiftl 256 20 - 1.

(** Returns [memoryview(self._size_buf)[:i+1]], read at once by the only
    caller. *)
Definition remaining_len (size : Z) : M bytes :=
  py_assert (size <=? MAX_REMAINING) ;;
  c0 <- get ;;
  i <- remaining_len_loop (List.length (_size_buf c0) - 1) 0 size ;;
  c <- get ;;
  ret (firstn (S i) (_size_buf c)).

(** ** Client._recv_len *)

(** [for i in range(4)] with its [else] branch: [n] rounds are left. *)
Fixpoint _recv_len_loop (n : nat) (i : Z) (value : Z) : M Z :=
  match n with
  | O => raise (PyException "OH NO")
  | S n' =>
      b <- sock_recv 1 ;;
      _byte <- unpack1 b ;;
      let value := Z.lor value (Z.shiftl (Z.land _byte 127) (7 * i)) in
      if Z.land _byte 128 =? 0 then ret value
      else _recv_len_loop n' (i + 1) value
  end.

Definition _recv_len : M Z := _recv_len_loop 4 0 0.

(** ** Client._send *)

Definition _send (ctrl_typ flags : Z) (payload : bytes) : M unit :=
  let flags :=
    if (ctrl_typ =? P_PUBREL) || (ctrl_typ =? P_SUBSCRIBE)
       || (ctrl_typ =? P_UNSUBSCRIBE)
    then 2 else flags in
  ctrl_pkt <- lift ValueError (mk_bytes [Z.lor (Z.shiftl ctrl_typ 4) flags]) ;;
  _ <- the_sock ;;
  len <- remaining_len (Z.of_nat (List.length payload)) ;;
  sock_sendall (ctrl_pkt ++ len) ;;
  _ <- the_sock ;;
  sock_sendall payload.

(** ** The packet identifier *)

(** Python's [a or b] on ints. *)
Definition py_or (a b : Z) : Z := if truthy a then a else b.

(** [self._packet_id = self._packet_id + 1 & 0xffff or 1], where [+] binds
    tighter than [&], and [&] tighter than [or]. *)
Definition next_packet_id (p : Z) : Z := py_or (Z.land (p + 1) 0xffff) 1.

Definition advance_packet_id : M unit :=
  c <- get ;; modify (set_packet_id (next_packet_id (_packet_id c))).

(** ** Client.subscribe *)

(** The [for topic in topics] loop, extending [remaining]. *)
Fixpoint subscribe_topics (topics : list string) (qos : Z) (remaining : bytes)
  : M bytes :=
  match topics with
  | [] => ret remaining
  | t :: topics' =>
      let t := encode_utf8 t in
      len <- lift OverflowError (int_to_bytes (Z.of_nat (List.length t)) 2) ;;
      let remaining := remaining ++ len in
      q <- lift ValueError (mk_bytes [qos]) ;;
      subscribe_topics topics' qos (remaining ++ (t ++ q))
  end.

Definition subscribe (topics : list string) (qos : Z) : M Z :=
  advance_packet_id ;;
  c <- get ;;
  remaining <- lift OverflowError (int_to_bytes (_packet_id c) 2) ;;
  remaining <- subscribe_topics topics qos remaining ;;
  _send P_SUBSCRIBE 0 remaining ;;
  c <- get ;;
  ret (_packet_id c).

(** ** Client.publish *)

(** [retain] is the int value of the caller's bool.  The function ends
    without a [return] when [qos] is 0, which yields [None]. *)
Definition publish (topic message : string) (qos retain : Z) : M pyval :=
  let flags := Z.lor (Z.shiftl qos 1) retain in
  let topic := encode_utf8 topic in
  payload <- lift OverflowError (int_to_bytes (Z.of_nat (List.length topic)) 2) ;;
  let payload := payload ++ topic in
  payload <-
    (if truthy qos then
       advance_packet_id ;;
       c <- get ;;
       pid <- lift OverflowError (int_to_bytes (_packet_id c) 2) ;;
       ret (payload ++ pid)
     else ret payload) ;;
  let payload := payload ++ encode_utf8 message in
  _send P_PUBLISH flags payload ;;
  if truthy qos then
    c <- get ;;
    modify (set_pub_queue (_pub_queue c ++ [(_packet_id c, flags, payload)])) ;;
    ret (PyInt (_packet_id c))
  else ret PyNone.

(** ** Client.republish and Client.ping *)

Definition republish (flags : Z) (payload : bytes) : M unit :=
  let flags := Z.lor flags (Z.shiftl 1 3) in
  _send P_PUBLISH flags payload.

Definition ping : M unit :=
  let ctrl_pkt := Z.shiftl P_PINGREQ 4 in
  _ <- the_sock ;;
  b <- lift OverflowError (int_to_bytes_little ctrl_pkt 2) ;;
  sock_sendall b.

(** ** Client.reconnect and Client.connect *)

(** [net] is the connection the broker side offers to the socket opened
    here: what it will send, and whether it then closes. *)
Definition reconnect (net : Socket) : M Z :=
  c <- get ;;
  (match sock c with
   | Some _ => modify (add_event EvClose)
   | None => ret tt
   end) ;;
  modify (set_sock (Some net)) ;;
  k <- lift AttributeError (keepalive c) ;;
  h <- lift AttributeError (host c) ;;
  p <- lift AttributeError (port c) ;;
  modify (add_event (EvOpen h p)) ;;
  let remaining := [x00; x04; x4d; x51; x54; x54; x04]%byte in
  flag <- lift ValueError (mk_byte (Z.shiftl (Z.b2z (clean_session c)) 1)) ;;
  let remaining := remaining ++ [flag] in
  ka <- lift OverflowError (int_to_bytes k 2) ;;
  let remaining := remaining ++ ka in
  let cid := encode_utf8 (client_id c) in
  len <- lift OverflowError (int_to_bytes (Z.of_nat (List.length cid)) 2) ;;
  let remaining := remaining ++ len in
  let remaining := remaining ++ cid in
  _send P_CONNECT 0 remaining ;;
  b <- sock_recv 1 ;;
  ack <- unpack1 b ;;
  py_assert (Z.shiftr ack 4 =? P_CONNACK) ;;
  modify (set_connected true) ;;
  b <- sock_recv 3 ;;
  '(_, flags, ret_code) <- unpack3 b ;;
  py_assert (ret_code =? 0) ;;
  ret (Z.land flags 1).

Definition connect (h : string) (p k : Z) (net : Socket) : M Z :=
  modify (set_target h p k) ;;
  reconnect net.

(** ** Client._unpack_publish *)

(** Slices of a memoryview never raise.  With a non-zero [qos] the packet
    identifier is sliced from [data], the whole packet, not from [_data],
    the rest after the topic. *)
Definition _unpack_publish (data : bytes) (retain qos : Z) : pyval * Message :=
  let _data := data in
  let topic_len := int_from_bytes (firstn 2 _data) in
  let _data := skipn 2 _data in
  let topic := decode_utf8 (firstn (Z.to_nat topic_len) _data) in
  let _data := skipn (Z.to_nat topic_len) _data in
  let pid := PyInt 0 in
  let '(pid, _data) :=
    if truthy qos then (PyBytes (firstn 2 data), skipn 2 _data)
    else (pid, _data) in
  let payload := decode_utf8 _data in
  let msg := mkMessage topic payload qos retain in
  (pid, msg).

(** ** Client.loop_read *)

Inductive flow := Continue | Break.

(** The local variables that live across rounds of the [while] loop.
    [data] is unbound until a packet with a payload has been read. *)
Record locals := mkLocals {
  data : option bytes;
  ping_resp : bool
}.

(** Reading the local [data]. *)
Definition read_data (l : locals) : M bytes := lift NameError (data l).

(** [self.on_message(self, self.userdata, msg)] *)
Definition call_on_message (msg : Message) : M unit :=
  c <- get ;;
  modify (add_event (EvCallback msg)) ;;
  match on_message c msg with
  | CbReturn printed =>
      modify (fun c => fold_left (fun c args => add_event (EvPrint args) c)
                                 printed c)
  | CbRaise e => raise e
  end.

(** The [for ... enumerate(self._pub_queue)] scan: the index of the first
    entry acknowledged by [packet_id], counting from [i]. *)
Fixpoint find_ack (packet_id : Z) (q : list InFlight) (i : nat) : option nat :=
  match q with
  | [] => None
  | (_packet_id, _, _) :: q' =>
      if packet_id =? _packet_id then Some i
      else find_ack packet_id q' (S i)
  end.

(** [del l[i]] for an index in range. *)
Definition list_del {A} (i : nat) (l : list A) : list A :=
  firstn i l ++ skipn (S i) l.

(** The handlers, from the comment [Start of handlers] on. *)
Definition handlers (ctrl_pkt : Z) (l : locals) : M (flow * locals) :=
  let ctrl_pkt_typ := Z.shiftr ctrl_pkt 4 in
  if ctrl_pkt_typ =? P_PINGRESP then
    ret (Continue, mkLocals (data l) true)
  else if ctrl_pkt_typ =? P_SUBACK then
    d <- read_data l ;;
    let pid := int_from_bytes (firstn 2 d) in
    ret_code <- lift IndexError (option_map byte_val (nth_error d 2)) ;;
    ret (Continue, l)
  else if ctrl_pkt_typ =? P_PUBLISH then
    let retain := Z.land ctrl_pkt 1 in
    let qos := Z.land (Z.shiftr ctrl_pkt 1) 3 in
    let dup := Z.land (Z.shiftr ctrl_pkt 3) 1 in
    d <- read_data l ;;
    let '(pid, msg) := _unpack_publish d retain qos in
    (if qos =? 1 then
       match pid with
       | PyBytes b => _send P_PUBACK 0 b
       | _ => raise TypeError
       end
     else ret tt) ;;
    call_on_message msg ;;
    ret (Continue, l)
  else if ctrl_pkt_typ =? P_PUBACK then
    d <- read_data l ;;
    let packet_id := int_from_bytes d in
    c <- get ;;
    match find_ack packet_id (_pub_queue c) 0 with
    | Some i => modify (set_pub_queue (list_del i (_pub_queue c)))
    | None =>
        modify (add_event (EvPrint [PyStr "WTF puback for unknown packet_id:";
                                    PyInt packet_id]))
    end ;;
    ret (Continue, l)
  else if ctrl_pkt_typ =? P_DISCONNECT then
    modify (set_connected false) ;;
    ret (Break, l)
  else
    modify (add_event (EvPrint [PyStr "Unhandled"])) ;;
    modify (add_event (EvPrint [PyInt ctrl_pkt])) ;;
    modify (add_event (EvPrint [PyInt ctrl_pkt_typ])) ;;
    ret (Continue, l).

(** One round of the [while] loop, entered after the poll reported the
    socket readable.  Only a ValueError of the first read is caught. *)
Definition loop_read_body (l : locals) : M (flow * locals) :=
  fun c =>
    match (b <- sock_recv 1 ;; unpack1 b) c with
    | (Exn ValueError, c') => (Val (Break, l), set_connected false c')
    | (Exn e, c') => (Exn e, c')
    | (Val ctrl_pkt, c') =>
        (data_len <- _recv_len ;;
         l <- (if truthy data_len then
                 d <- sock_recv data_len ;;
                 ret (mkLocals (Some d) (ping_resp l))
               else ret l) ;;
         handlers ctrl_pkt l) c'
    end.

(** The [while self.poll.poll(...)] loop.  [None] is returned only when
    [fuel] rounds were not enough. *)
Fixpoint loop_read_loop (fuel : nat) (l : locals) : M (option bool) :=
  c <- get ;;
  if poll_ready c then
    match fuel with
    | O => ret None
    | S fuel' =>
        r <- loop_read_body l ;;
        match r with
        | (Continue, l') => loop_read_loop fuel' l'
        | (Break, l') => ret (Some (ping_resp l'))
        end
    end
  else ret (Some (ping_resp l)).

(** The bytes pending on the socket. *)
Definition pending (c : Client) : nat :=
  match sock c with
  | Some s => List.length (inbound s)
  | None => O
  end.

(** A round that does not leave the loop consumes a pending byte, so one
    round more than there are pending bytes always suffices. *)
Definition loop_read : M (option bool) :=
  c <- get ;;
  k <- lift AttributeError (keepalive c) ;;
  let timeout := k / 2 in
  loop_read_loop (S (pending c)) (mkLocals None false).

(** * Vocabulary of the statements *)

(** ** Bytes *)

(** The byte with value [x], for [x] in [range(256)]. *)
Definition byte_of (x : Z) : byte :=
  match mk_byte x with Some b => b | None => x00%byte end.

(** The two big-endian bytes of [n], for [n] below 65536. *)
Definition be2 (n : Z) : bytes := [byte_of (n / 256); byte_of (n mod 256)].

(** ** Encodings *)

(** The values of the bytes that the loop of [remaining_len] writes for
    [size], as a function of the size alone: seven bits at a time, lowest
    first, with bit 7 set on all but the last.  [room] is as in
    [remaining_len_loop]. *)
Fixpoint varint (room : nat) (size : Z) : list Z :=
  if 0 <? Z.shiftr size 7 then
    Z.lor (Z.land size 127) 128 ::
      match room with
      | S room' => varint room' (Z.shiftr size 7)
      | O => []
      end
  else [Z.land size 127].

(** Python's [int.bit_length]. *)
Definition bit_length (n : Z) : Z :=
  if n =? 0 then 0 else Z.log2 (Z.abs n) + 1.

(** The quotient rounded up, for a positive divisor. *)
Definition ceil_div (a b : Z) : Z := (a + b - 1) / b.

(** The flags [_send] puts in the fixed header. *)
Definition sent_flags (ctrl_typ flags : Z) : Z :=
  if (ctrl_typ =? P_PUBREL) || (ctrl_typ =? P_SUBSCRIBE)
     || (ctrl_typ =? P_UNSUBSCRIBE)
  then 2 else flags.

(** The payload [publish] builds when it issues the identifier [id]. *)
Definition publish_payload (topic message : string) (id : option Z) : bytes :=
  be2 (Z.of_nat (List.length (encode_utf8 topic))) ++ encode_utf8 topic
    ++ match id with Some p => be2 p | None => [] end
    ++ encode_utf8 message.

(** ** Packet identifiers *)

(** [n] successive advances of the generator, with the identifier each one
    yields. *)
Fixpoint advances (n : nat) : M (list Z) :=
  match n with
  | O => ret []
  | S n' =>
      advance_packet_id ;;
      c <- get ;;
      ids <- advances n' ;;
      ret (_packet_id c :: ids)
  end.

(** The identifier in force after [k] advances from the initial value 1. *)
Definition id_after (k : nat) : Z := Z.of_nat k mod 65535 + 1.

(** The packet identifier of an in-flight entry. *)
Definition entry_id (e : InFlight) : Z := fst (fst e).

(** ** Clients and packets used in examples *)

(** What the broker sends to accept a connection without a stored session:
    a CONNACK with return code 0. *)
Definition connack_accepted : bytes := [x20; x02; x00; x00]%byte.

(** A fresh client after [connect('broker', 1883, 60)] was accepted, with
    nothing more to read. *)
Definition online_client : Client :=
  snd (connect "broker" 1883 60 (mkSocket connack_accepted false)
         (new_client "" true)).

(** The same client once the broker has sent [b]. *)
Definition receiving (b : bytes) : Client :=
  set_sock (Some (mkSocket b false)) online_client.

(** PUBLISH, qos 1: topic 'a/b', packet identifier 1, payload 'hi'. *)
Definition publish_a_b_hi : bytes :=
  [x32; x09; x00; x03; x61; x2f; x62; x00; x01; x68; x69]%byte.

(** What the broker sends to refuse a connection: a CONNACK with return
    code 5, not authorized. *)
Definition connack_refused : bytes := [x20; x02; x00; x05]%byte.

(** ** What a computation leaves alone *)

(** [preserves R m]: running [m], whatever its outcome, takes a client to
    one related to it by [R]. *)
Definition preserves (R : Client -> Client -> Prop) {A} (m : M A) : Prop :=
  forall c, R c (snd (m c)).


(** The packet identifier in force is the same. *)
Definition same_packet_id (c c' : Client) : Prop :=
  _packet_id c' = _packet_id c.

(** ** Well-formed clients and what can happen to them *)

(** What the operations rely on and keep: the size buffer has its four
    bytes, the packet identifier in force fits in two bytes and is not 0,
    and so does the identifier of every in-flight entry. *)
Definition well_formed (c : Client) : Prop :=
  List.length (_size_buf c) = 4%nat /\
  1 <= _packet_id c <= 65535 /\
  Forall (fun e => 1 <= entry_id e <= 65535) (_pub_queue c).

(** [client.on_message = f] *)
Definition set_on_message (f : Message -> cb_result) (c : Client) : Client :=
  mkClient (client_id c) (clean_session c) (sock c) (_size_buf c)
    (_packet_id c) (connected c) f (_pub_queue c) (host c) (port c)
    (keepalive c) (trace c).

(** One thing that happens to a client: a call of one of its methods, by
    the caller, with any arguments and whatever its outcome; the caller
    replacing the callback; or the broker sending more bytes, and perhaps
    closing, on the current connection. *)
Inductive step :=
| DoPublish (topic message : string) (qos retain : Z)
| DoSubscribe (topics : list string) (qos : Z)
| DoRepublish (flags : Z) (payload : bytes)
| DoPing
| DoConnect (h : string) (p k : Z) (net : Socket)
| DoReconnect (net : Socket)
| DoLoopRead
| DoSetCallback (f : Message -> cb_result)
| Arrives (b : bytes) (closes : bool).

Definition run_step (st : step) (c : Client) : Client :=
  match st with
  | DoPublish topic message qos retain =>
      snd (publish topic message qos retain c)
  | DoSubscribe topics qos => snd (subscribe topics qos c)
  | DoRepublish flags payload => snd (republish flags payload c)
  | DoPing => snd (ping c)
  | DoConnect h p k net => snd (connect h p k net c)
  | DoReconnect net => snd (reconnect net c)
  | DoLoopRead => snd (loop_read c)
  | DoSetCallback f => set_on_message f c
  | Arrives b closes =>
      match sock c with
      | Some s =>
          set_sock (Some (mkSocket (inbound s ++ b) (peer_closed s || closes)))
            c
      | None => c
      end
  end.

Definition run (steps : list step) (c : Client) : Client :=
  fold_left (fun c st => run_step st c) steps c.

(** Well-formedness carries over. *)
Definition keeps_well_formed (c c' : Client) : Prop :=
  well_formed c -> well_formed c'.


(** The in-flight queue and the identifier in force are the same. *)
Definition same_session (c c' : Client) : Prop :=
  _pub_queue c' = _pub_queue c /\ _packet_id c' = _packet_id c.

(** The payload [subscribe] builds when it issues the identifier [id]. *)
Definition subscribe_payload (id : Z) (topics : list string) (qos : Z)
  : bytes :=
  be2 id
    ++ flat_map (fun t =>
                   be2 (Z.of_nat (List.length (encode_utf8 t)))
                     ++ encode_utf8 t ++ [byte_of qos])
                topics.

(** ** Proof support *)

(** Reduces the field projections and setters of the client and of the
    socket, and nothing else. *)
Ltac client_simpl :=
  cbn [client_id clean_session sock _size_buf _packet_id connected on_message
       _pub_queue host port keepalive trace inbound peer_closed
       set_sock set_size_buf set_packet_id set_connected set_pub_queue
       set_target add_event].

Create HintDb frame.


(** * Properties *)

(** ** Bytes and integers *)

Lemma byte_val_range (b : byte) : 0 <= byte_val b < 256.
Proof.
  unfold byte_val. pose proof (Byte.to_N_bounded b). lia.
Qed.

Lemma mk_byte_some (x : Z) : 0 <= x < 256 -> mk_byte x = Some (byte_of x).
Proof.
  intros Hx. unfold byte_of, mk_byte.
  replace ((0 <=? x) && (x <? 256)) with true by lia.
  destruct (Byte.of_N (Z.to_N x)) eqn:E; [reflexivity|].
  apply Byte.of_N_None_iff in E. lia.
Qed.

Lemma byte_val_of (x : Z) : 0 <= x < 256 -> byte_val (byte_of x) = x.
Proof.
  intros Hx. unfold byte_of, mk_byte.
  replace ((0 <=? x) && (x <? 256)) with true by lia.
  destruct (Byte.of_N (Z.to_N x)) eqn:E.
  - apply Byte.to_of_N in E. unfold byte_val. rewrite E. lia.
  - apply Byte.of_N_None_iff in E. lia.
Qed.

Lemma byte_of_val (b : byte) : byte_of (byte_val b) = b.
Proof.
  pose proof (byte_val_range b) as Hb.
  unfold byte_of, mk_byte.
  replace ((0 <=? byte_val b) && (byte_val b <? 256)) with true by lia.
  unfold byte_val. rewrite N2Z.id, Byte.of_to_N. reflexivity.
Qed.

Lemma land_127_range (x : Z) : 0 <= Z.land x 127 < 128.
Proof.
  change 127 with (Z.ones 7). rewrite Z.land_ones by lia.
  apply Z.mod_pos_bound. reflexivity.
Qed.

Lemma lor_128_range (x : Z) : 0 <= x < 128 -> 0 <= Z.lor x 128 < 256.
Proof.
  intros Hx. split.
  - apply Z.lor_nonneg. lia.
  - destruct (Z.eq_dec x 0) as [->|Hn]; [reflexivity|].
    apply Z.log2_lt_cancel. change (Z.log2 256) with 8.
    rewrite Z.log2_lor by lia.
    assert (Z.log2 x < 7) by (apply Z.log2_lt_pow2; lia).
    change (Z.log2 128) with 7. lia.
Qed.

(** ** Two-byte big-endian integers *)

Lemma int_to_bytes_2 (n : Z) :
  0 <= n < 65536 -> int_to_bytes n 2 = Some (be2 n).
Proof.
  intros Hn. unfold int_to_bytes.
  change (256 ^ Z.of_nat 2) with 65536.
  replace ((0 <=? n) && (n <? 65536)) with true by lia.
  cbn [be_digits app mk_bytes].
  assert (H1 : 0 <= n / 256 < 256) by (Z.to_euclidean_division_equations; lia).
  rewrite (Z.mod_small (n / 256)) by exact H1.
  rewrite (mk_byte_some _ H1).
  rewrite (mk_byte_some (n mod 256)) by (apply Z.mod_pos_bound; lia).
  reflexivity.
Qed.

Lemma int_from_bytes_be2 (n : Z) :
  0 <= n < 65536 -> int_from_bytes (be2 n) = n.
Proof.
  intros Hn. unfold int_from_bytes, be2. cbn [fold_left].
  rewrite !byte_val_of by (Z.to_euclidean_division_equations; lia).
  Z.to_euclidean_division_equations. lia.
Qed.

(** ** The monad *)

Lemma bind_val {A B} (m : M A) (k : A -> M B) c a c' :
  m c = (Val a, c') -> bind m k c = k a c'.
Proof. intros H. unfold bind. rewrite H. reflexivity. Qed.

Lemma bind_exn {A B} (m : M A) (k : A -> M B) c e c' :
  m c = (Exn e, c') -> bind m k c = (Exn e, c').
Proof. intros H. unfold bind. rewrite H. reflexivity. Qed.

(** ** What the operations leave alone *)

Section Frame.
Variable R : Client -> Client -> Prop.
Hypothesis R_refl : forall c, R c c.
Hypothesis R_trans : forall c1 c2 c3, R c1 c2 -> R c2 c3 -> R c1 c3.
Hypothesis R_size_buf :
  forall b c,
    List.length b = List.length (_size_buf c) -> R c (set_size_buf b c).
Hypothesis R_event : forall e c, R c (add_event e c).
Hypothesis R_dequeue :
  forall i c, R c (set_pub_queue (list_del i (_pub_queue c)) c).
Hypothesis R_disconnected : forall c, R c (set_connected false c).
Hypothesis R_recv : forall n, preserves R (sock_recv n).
Hypothesis R_advance :
  forall c, R c (set_packet_id (next_packet_id (_packet_id c)) c).
Hypothesis R_enqueue :
  forall flags pl c,
    R c (set_pub_queue (_pub_queue c ++ [(_packet_id c, flags, pl)]) c).
Hypothesis R_opened : forall net c, R c (set_sock (Some net) c).
Hypothesis R_connected : forall c, R c (set_connected true c).
Hypothesis R_target : forall h p k c, R c (set_target h p k c).

Lemma preserves_ret {A} (a : A) : preserves R (ret a).
Proof. intros c. apply R_refl. Qed.

Lemma preserves_raise {A} (e : exn) : preserves R (@raise A e).
Proof. intros c. apply R_refl. Qed.

Lemma preserves_get : preserves R get.
Proof. intros c. apply R_refl. Qed.

Lemma preserves_lift {A} e (o : option A) : preserves R (lift e o).
Proof. destruct o; intros c; apply R_refl. Qed.

Lemma preserves_py_assert b : preserves R (py_assert b).
Proof. destruct b; intros c; apply R_refl. Qed.

Lemma preserves_bind {A B} (m : M A) (k : A -> M B) :
  preserves R m -> (forall a, preserves R (k a)) -> preserves R (bind m k).
Proof.
  intros Hm Hk c. unfold bind. specialize (Hm c).
  destruct (m c) as [[a|e] c']; cbn [snd] in *.
  - exact (R_trans _ _ _ Hm (Hk a c')).
  - exact Hm.
Qed.

Lemma preserves_modify (f : Client -> Client) :
  (forall c, R c (f c)) -> preserves R (modify f).
Proof. intros Hf c. apply Hf. Qed.

#[local] Hint Resolve preserves_ret preserves_raise preserves_get
  preserves_lift preserves_py_assert preserves_bind preserves_modify
  R_recv : frame.

Lemma preserves_the_sock : preserves R the_sock.
Proof. unfold the_sock. auto with frame. Qed.

Lemma preserves_sock_sendall b : preserves R (sock_sendall b).
Proof. unfold sock_sendall. auto with frame. Qed.

Lemma preserves_unpack1 b : preserves R (unpack1 b).
Proof. destruct b as [|x [|y b]]; cbn [unpack1]; auto with frame. Qed.

Lemma preserves_size_buf_store i v : preserves R (size_buf_store i v).
Proof.
  intros c. unfold size_buf_store, bind, get.
  destruct (Nat.ltb i (List.length (_size_buf c))) eqn:Hi;
    [|apply R_refl].
  destruct (mk_byte v) as [b|]; cbn [lift ret raise modify snd];
    [|apply R_refl].
  apply R_size_buf. apply Nat.ltb_lt in Hi.
  rewrite length_app, length_firstn. cbn [List.length].
  rewrite length_skipn. lia.
Qed.

Lemma preserves_size_buf_load i : preserves R (size_buf_load i).
Proof. unfold size_buf_load. auto with frame. Qed.

#[local] Hint Resolve preserves_the_sock preserves_sock_sendall
  preserves_unpack1 preserves_size_buf_store preserves_size_buf_load
  : frame.

Lemma preserves_remaining_len_loop room :
  forall i size, preserves R (remaining_len_loop room i size).
Proof.
  induction room as [|room IH]; intros i size; cbn [remaining_len_loop];
    (apply preserves_bind; [auto with frame|]); intros _;
    (destruct (0 <? Z.shiftr size 7); [|auto with frame]);
    (apply preserves_bind; [auto with frame|]); intros old;
    (apply preserves_bind; [auto with frame|]); intros _;
    auto with frame.
Qed.

Lemma preserves_remaining_len size : preserves R (remaining_len size).
Proof.
  unfold remaining_len.
  repeat (apply preserves_bind;
          [auto using preserves_remaining_len_loop with frame|];
          intros ?).
  auto with frame.
Qed.

Lemma preserves__send ctrl_typ flags pl :
  preserves R (_send ctrl_typ flags pl).
Proof.
  unfold _send.
  repeat (apply preserves_bind;
          [auto using preserves_remaining_len with frame|];
          intros ?).
  auto with frame.
Qed.

Lemma preserves__recv_len_loop n :
  forall i value, preserves R (_recv_len_loop n i value).
Proof.
  induction n as [|n IH]; intros i value; cbn [_recv_len_loop];
    [auto with frame|].
  apply preserves_bind; [auto with frame|]. intros b.
  apply preserves_bind; [auto with frame|]. intros x.
  destruct (Z.land x 128 =? 0); auto with frame.
Qed.

Lemma preserves_subscribe_topics topics qos :
  forall remaining, preserves R (subscribe_topics topics qos remaining).
Proof.
  induction topics as [|t topics IH]; intros remaining;
    cbn [subscribe_topics]; auto with frame.
Qed.

Lemma preserves_prints (printed : list (list pyval)) :
  forall c,
    R c (fold_left (fun c args => add_event (EvPrint args) c) printed c).
Proof.
  induction printed as [|args printed IH]; intros c; cbn [fold_left];
    [apply R_refl|].
  exact (R_trans _ _ _ (R_event _ c) (IH _)).
Qed.

Lemma preserves_call_on_message msg : preserves R (call_on_message msg).
Proof.
  unfold call_on_message. apply preserves_bind; [auto with frame|].
  intros c. apply preserves_bind; [auto with frame|]. intros _.
  destruct (on_message c msg); [|auto with frame].
  apply preserves_modify. apply preserves_prints.
Qed.

Lemma preserves_handlers ctrl_pkt l : preserves R (handlers ctrl_pkt l).
Proof.
  unfold handlers, read_data.
  destruct (Z.shiftr ctrl_pkt 4 =? P_PINGRESP); [auto with frame|].
  destruct (Z.shiftr ctrl_pkt 4 =? P_SUBACK).
  { repeat (apply preserves_bind; [auto with frame|]; intros ?).
    auto with frame. }
  destruct (Z.shiftr ctrl_pkt 4 =? P_PUBLISH).
  { apply preserves_bind; [auto with frame|]. intros d.
    destruct (_unpack_publish d _ _) as [pid msg].
    apply preserves_bind.
    - destruct (_ =? 1); [|auto with frame].
      destruct pid; auto using preserves__send with frame.
    - intros _. apply preserves_bind; [apply preserves_call_on_message|].
      auto with frame. }
  destruct (Z.shiftr ctrl_pkt 4 =? P_PUBACK).
  { apply preserves_bind; [auto with frame|]. intros d c.
    unfold bind, get.
    destruct (find_ack _ _ _); cbn [modify ret snd];
      [apply R_dequeue | apply R_event]. }
  destruct (Z.shiftr ctrl_pkt 4 =? P_DISCONNECT); auto 6 with frame.
Qed.

(** What follows the first read in a round of the loop. *)
Lemma preserves_loop_read_rest ctrl_pkt l :
  preserves R
    (data_len <- _recv_len ;;
     l <- (if truthy data_len then
             d <- sock_recv data_len ;;
             ret (mkLocals (Some d) (ping_resp l))
           else ret l) ;;
     handlers ctrl_pkt l).
Proof.
  apply preserves_bind; [apply preserves__recv_len_loop|]. intros n.
  apply preserves_bind; [destruct (truthy n); auto with frame|].
  intros l0. apply preserves_handlers.
Qed.
Lemma preserves_unpack3 b : preserves R (unpack3 b).
Proof.
  destruct b as [|x [|y [|z [|w b]]]]; cbn [unpack3]; auto with frame.
Qed.

Lemma preserves_advance_packet_id : preserves R advance_packet_id.
Proof. intros c. apply R_advance. Qed.

Lemma preserves_subscribe topics qos : preserves R (subscribe topics qos).
Proof.
  unfold subscribe.
  apply preserves_bind; [apply preserves_advance_packet_id|]. intros _.
  apply preserves_bind; [auto with frame|]. intros c.
  apply preserves_bind; [auto with frame|]. intros r.
  apply preserves_bind; [apply preserves_subscribe_topics|]. intros r'.
  apply preserves_bind; [apply preserves__send|]. auto with frame.
Qed.

Lemma preserves_publish topic message qos retain :
  preserves R (publish topic message qos retain).
Proof.
  unfold publish.
  apply preserves_bind; [auto with frame|]. intros pl.
  apply preserves_bind.
  { destruct (truthy qos); [|auto with frame].
    apply preserves_bind; [apply preserves_advance_packet_id|]. intros _.
    auto with frame. }
  intros pl'.
  apply preserves_bind; [apply preserves__send|]. intros _.
  destruct (truthy qos); [|auto with frame].
  intros c. apply R_enqueue.
Qed.

Lemma preserves_republish flags pl : preserves R (republish flags pl).
Proof. unfold republish. apply preserves__send. Qed.

Lemma preserves_ping : preserves R ping.
Proof. unfold ping. auto with frame. Qed.

Lemma preserves_reconnect net : preserves R (reconnect net).
Proof.
  unfold reconnect.
  apply preserves_bind; [auto with frame|]. intros c.
  apply preserves_bind; [destruct (sock c); auto with frame|]. intros _.
  apply preserves_bind; [auto with frame|]. intros _.
  do 3 (apply preserves_bind; [auto with frame|]; intros ?).
  apply preserves_bind; [auto with frame|]. intros _.
  do 3 (apply preserves_bind; [auto with frame|]; intros ?).
  apply preserves_bind; [apply preserves__send|]. intros _.
  apply preserves_bind; [auto with frame|]. intros b.
  apply preserves_bind; [auto with frame|]. intros ack.
  apply preserves_bind; [auto with frame|]. intros _.
  apply preserves_bind; [auto with frame|]. intros _.
  apply preserves_bind; [auto with frame|]. intros b3.
  apply preserves_bind; [apply preserves_unpack3|]. intros [[x fl] rc].
  auto with frame.
Qed.

Lemma preserves_connect h p k net : preserves R (connect h p k net).
Proof.
  unfold connect.
  apply preserves_bind; [auto with frame|]. intros _.
  apply preserves_reconnect.
Qed.

Lemma preserves_loop_read_body l : preserves R (loop_read_body l).
Proof.
  intros c. unfold loop_read_body.
  assert (Hfirst : preserves R (bind (sock_recv 1) (fun b => unpack1 b)))
    by auto with frame.
  specialize (Hfirst c).
  destruct (bind (sock_recv 1) (fun b => unpack1 b) c) as [[ctrl|e] c1];
    cbn [snd] in Hfirst.
  - exact (R_trans _ _ _ Hfirst (preserves_loop_read_rest ctrl l c1)).
  - destruct e; try exact Hfirst.
    exact (R_trans _ _ _ Hfirst (R_disconnected c1)).
Qed.

Lemma preserves_loop_read_loop fuel :
  forall l, preserves R (loop_read_loop fuel l).
Proof.
  induction fuel as [|fuel IH]; intros l; cbn [loop_read_loop];
    (apply preserves_bind; [auto with frame|]); intros c;
    (destruct (poll_ready c); [|auto with frame]); [auto with frame|].
  apply preserves_bind; [apply preserves_loop_read_body|].
  intros [[|] l']; auto with frame.
Qed.

Lemma preserves_loop_read : preserves R loop_read.
Proof.
  unfold loop_read.
  apply preserves_bind; [auto with frame|]. intros c.
  apply preserves_bind; [auto with frame|]. intros k.
  apply preserves_loop_read_loop.
Qed.
End Frame.

(** ** remaining_len: the bytes it produces *)

Lemma varint_length_pos room size : (1 <= List.length (varint room size))%nat.
Proof.
  destruct room; cbn [varint]; destruct (0 <? Z.shiftr size 7);
    cbn [List.length]; lia.
Qed.

Lemma store_middle {A} (pre : list A) x b post :
  firstn (List.length pre) (pre ++ x :: post)
    ++ b :: skipn (S (List.length pre)) (pre ++ x :: post)
  = pre ++ b :: post.
Proof.
  induction pre as [|a pre IH]; [reflexivity|].
  cbn [List.length app firstn skipn]. cbn [skipn] in IH.
  rewrite IH. reflexivity.
Qed.

Lemma size_buf_store_spec c pre x post v :
  _size_buf c = pre ++ x :: post ->
  0 <= v < 256 ->
  size_buf_store (List.length pre) v c
  = (Val tt, set_size_buf (pre ++ byte_of v :: post) c).
Proof.
  intros Hbuf Hv. unfold size_buf_store, bind, get. rewrite Hbuf.
  rewrite length_app. cbn [List.length].
  replace (Nat.ltb (List.length pre) (List.length pre + S (List.length post)))
    with true by (symmetry; apply Nat.ltb_lt; lia).
  rewrite (mk_byte_some v Hv). cbn [lift ret]. unfold modify.
  rewrite store_middle. reflexivity.
Qed.

Lemma varint_length_le room :
  forall size, (List.length (varint room size) <= S room)%nat.
Proof.
  induction room as [|room IH]; intros size; cbn [varint];
    destruct (0 <? Z.shiftr size 7); cbn [List.length]; try lia.
  specialize (IH (Z.shiftr size 7)). lia.
Qed.

Lemma size_buf_load_spec c pre x post :
  _size_buf c = pre ++ x :: post ->
  size_buf_load (List.length pre) c = (Val (byte_val x), c).
Proof.
  intros Hbuf. unfold size_buf_load, bind, get. rewrite Hbuf.
  rewrite nth_error_app2 by lia. rewrite Nat.sub_diag. reflexivity.
Qed.

Lemma shiftr7_small (size : Z) (k : Z) :
  0 <= k -> size < 128 ^ (k + 1) -> Z.shiftr size 7 < 128 ^ k.
Proof.
  intros Hk Hs. rewrite Z.shiftr_div_pow2 by lia. change (2 ^ 7) with 128.
  apply Z.div_lt_upper_bound; [lia|].
  rewrite Z.pow_add_r in Hs by lia. lia.
Qed.

Lemma remaining_len_loop_spec post :
  forall pre x size c,
    _size_buf c = pre ++ x :: post ->
    size < 128 ^ (Z.of_nat (List.length post) + 1) ->
    remaining_len_loop (List.length post) (List.length pre) size c
    = (Val (List.length pre + List.length (varint (List.length post) size) - 1)%nat,
       set_size_buf
         (pre ++ map byte_of (varint (List.length post) size)
              ++ skipn (List.length (varint (List.length post) size) - 1) post)
         c).
Proof.
  induction post as [|y post IH]; intros pre x size c Hbuf Hsize;
    pose proof (land_127_range size) as Hland;
    assert (Hland' : 0 <= Z.land size 127 < 256) by lia.
  - pose proof (shiftr7_small size 0 ltac:(lia) Hsize) as Hs.
    change (128 ^ 0) with 1 in Hs.
    cbn [remaining_len_loop varint List.length].
    replace (0 <? Z.shiftr size 7) with false by lia.
    rewrite (bind_val _ _ _ _ _
               (size_buf_store_spec c pre x [] (Z.land size 127) Hbuf Hland')).
    unfold ret. simpl. f_equal. f_equal. lia.
  - cbn [remaining_len_loop varint List.length].
    rewrite (bind_val _ _ _ _ _
               (size_buf_store_spec c pre x (y :: post) (Z.land size 127)
                  Hbuf Hland')).
    destruct (0 <? Z.shiftr size 7) eqn:Hcont.
    + set (c1 := set_size_buf (pre ++ byte_of (Z.land size 127) :: y :: post) c).
      assert (Hb1 : _size_buf c1 = pre ++ byte_of (Z.land size 127) :: y :: post)
        by reflexivity.
      rewrite (bind_val _ _ _ _ _ (size_buf_load_spec c1 pre _ _ Hb1)).
      rewrite byte_val_of by lia.
      rewrite (bind_val _ _ _ _ _
                 (size_buf_store_spec c1 pre _ (y :: post) _ Hb1
                    (lor_128_range _ Hland))).
      set (b := byte_of (Z.lor (Z.land size 127) 128)).
      set (c2 := set_size_buf (pre ++ b :: y :: post) c1).
      assert (Hb2 : _size_buf c2 = (pre ++ [b]) ++ y :: post)
        by (simpl; rewrite <- app_assoc; reflexivity).
      replace (S (List.length pre)) with (List.length (pre ++ [b]))
        by (rewrite length_app; simpl; lia).
      rewrite (IH (pre ++ [b]) y (Z.shiftr size 7) c2 Hb2).
      * pose proof (varint_length_pos (List.length post) (Z.shiftr size 7)).
        f_equal.
        -- f_equal. rewrite length_app. simpl. lia.
        -- unfold c2, c1, set_size_buf. simpl. f_equal.
           rewrite <- app_assoc. simpl. f_equal. f_equal. f_equal.
           destruct (List.length (varint (List.length post) (Z.shiftr size 7)))
             as [|n] eqn:E; [lia|].
           simpl. rewrite Nat.sub_0_r. reflexivity.
      * apply shiftr7_small; [lia|].
        replace (Z.of_nat (List.length post) + 1 + 1)
          with (Z.of_nat (List.length (y :: post)) + 1) by (simpl; lia).
        exact Hsize.
    + unfold ret. simpl. f_equal. f_equal. lia.
Qed.

Lemma MAX_REMAINING_eq : MAX_REMAINING = 128 ^ 4 - 1.
Proof. reflexivity. Qed.

Lemma remaining_len_ok c size :
  List.length (_size_buf c) = 4%nat ->
  size <= MAX_REMAINING ->
  exists buf,
    List.length buf = 4%nat /\
    remaining_len size c
    = (Val (map byte_of (varint 3 size)), set_size_buf buf c).
Proof.
  intros Hlen Hsize.
  destruct (_size_buf c) as [|x [|y1 [|y2 [|y3 [|? ?]]]]] eqn:Hbuf;
    try discriminate Hlen.
  pose proof (remaining_len_loop_spec [y1; y2; y3] [] x size c Hbuf) as Hloop.
  cbn [List.length] in Hloop.
  rewrite MAX_REMAINING_eq in Hsize.
  specialize (Hloop ltac:(change (128 ^ (Z.of_nat 3 + 1)) with (128 ^ 4); lia)).
  pose proof (varint_length_pos 3 size) as Hpos.
  set (v := varint 3 size) in *.
  exists (map byte_of v ++ skipn (List.length v - 1) [y1; y2; y3]).
  assert (Hv : (List.length v <= 4)%nat).
  { apply (varint_length_le 3 size). }
  split.
  - rewrite length_app, length_map, length_skipn. cbn [List.length]. lia.
  - unfold remaining_len, py_assert.
    replace (size <=? MAX_REMAINING) with true
      by (rewrite MAX_REMAINING_eq; lia).
    unfold bind at 1. cbn [ret].
    unfold bind at 1. cbn [get]. rewrite Hbuf.
    change (List.length [x; y1; y2; y3] - 1)%nat with 3%nat.
    rewrite (bind_val _ _ _ _ _ Hloop).
    unfold bind, get, ret. cbn [_size_buf set_size_buf app].
    f_equal. f_equal.
    replace (S (0 + List.length v - 1)) with (List.length (map byte_of v))
      by (rewrite length_map; lia).
    rewrite firstn_app, firstn_all, Nat.sub_diag. simpl.
    apply app_nil_r.
Qed.

Lemma remaining_len_too_big c size :
  MAX_REMAINING < size -> remaining_len size c = (Exn AssertionError, c).
Proof.
  intros H. unfold remaining_len, py_assert.
  replace (size <=? MAX_REMAINING) with false by lia. reflexivity.
Qed.

(** ** _recv_len reads back what remaining_len wrote *)

Lemma sock_recv_spec c s d rest :
  sock c = Some s ->
  inbound s = d ++ rest ->
  d <> [] ->
  sock_recv (Z.of_nat (List.length d)) c
  = (Val d, set_sock (Some (mkSocket rest (peer_closed s))) c).
Proof.
  intros Hs Hin Hd. unfold sock_recv, the_sock, bind, get. rewrite Hs.
  cbn [lift ret]. rewrite Hin.
  destruct d as [|b d]; [contradiction|].
  cbn [app]. rewrite <- app_comm_cons in *.
  change (b :: d ++ rest) with ((b :: d) ++ rest).
  rewrite Nat2Z.id. unfold modify, ret.
  rewrite firstn_app, firstn_all, Nat.sub_diag, skipn_app, skipn_all,
    Nat.sub_diag.
  simpl. rewrite app_nil_r. reflexivity.
Qed.

Lemma sock_recv1_spec c s b rest :
  sock c = Some s ->
  inbound s = b :: rest ->
  sock_recv 1 c = (Val [b], set_sock (Some (mkSocket rest (peer_closed s))) c).
Proof.
  intros Hs Hin.
  apply (sock_recv_spec c s [b] rest Hs Hin). discriminate.
Qed.

Lemma split_low7 (x : Z) :
  Z.lor (Z.land x 127) (Z.shiftl (Z.shiftr x 7) 7) = x.
Proof.
  apply Z.bits_inj'. intros n Hn.
  rewrite Z.lor_spec, Z.land_spec. change 127 with (Z.ones 7).
  destruct (Z.ltb_spec n 7).
  - rewrite Z.shiftl_spec_low, Z.ones_spec_low by lia.
    rewrite andb_true_r, orb_false_r. reflexivity.
  - rewrite Z.shiftl_spec, Z.shiftr_spec, Z.ones_spec_high by lia.
    rewrite andb_false_r. simpl. f_equal. lia.
Qed.

Lemma low7_of_small (x : Z) :
  0 <= x -> Z.shiftr x 7 <= 0 -> Z.land x 127 = x.
Proof.
  intros Hx Hs.
  assert (E : Z.shiftr x 7 = 0) by (pose proof (Z.shiftr_nonneg x 7); lia).
  pose proof (split_low7 x) as Hsplit.
  rewrite E, Z.shiftl_0_l, Z.lor_0_r in Hsplit. exact Hsplit.
Qed.

Lemma low7_of_continued (x : Z) :
  Z.land (Z.lor (Z.land x 127) 128) 127 = Z.land x 127.
Proof.
  rewrite Z.land_lor_distr_l, <- Z.land_assoc. simpl (Z.land 127 127).
  simpl (Z.land 128 127). apply Z.lor_0_r.
Qed.

Lemma high_of_continued (x : Z) :
  Z.land (Z.lor (Z.land x 127) 128) 128 = 128.
Proof.
  rewrite Z.land_lor_distr_l, <- Z.land_assoc. simpl (Z.land 127 128).
  rewrite Z.land_0_r. reflexivity.
Qed.

Lemma high_of_last (x : Z) : Z.land (Z.land x 127) 128 = 0.
Proof.
  rewrite <- Z.land_assoc. simpl (Z.land 127 128). apply Z.land_0_r.
Qed.

Lemma low7_of_last (x : Z) : Z.land (Z.land x 127) 127 = Z.land x 127.
Proof.
  rewrite <- Z.land_assoc. reflexivity.
Qed.

Lemma _recv_len_loop_spec room :
  forall n i value size c s rest,
    (room < n)%nat ->
    0 <= i ->
    0 <= size < 128 ^ (Z.of_nat room + 1) ->
    sock c = Some s ->
    inbound s = map byte_of (varint room size) ++ rest ->
    _recv_len_loop n i value c
    = (Val (Z.lor value (Z.shiftl size (7 * i))),
       set_sock (Some (mkSocket rest (peer_closed s))) c).
Proof.
  induction room as [|room IH]; intros n i value size c s rest Hn Hi Hsize Hs Hin;
    (destruct n as [|n]; [lia|]);
    pose proof (land_127_range size) as Hland;
    cbn [_recv_len_loop]; cbn [varint] in Hin.
  - pose proof (shiftr7_small size 0 ltac:(lia) (proj2 Hsize)) as Hsh.
    change (128 ^ 0) with 1 in Hsh.
    replace (0 <? Z.shiftr size 7) with false in Hin by lia.
    cbn [map app] in Hin.
    rewrite (bind_val _ _ _ _ _ (sock_recv1_spec c s _ rest Hs Hin)).
    cbn [unpack1]. unfold bind at 1. cbn [ret].
    rewrite byte_val_of by lia. rewrite high_of_last, low7_of_last.
    cbn [Z.eqb]. unfold ret. rewrite low7_of_small by lia. reflexivity.
  - destruct (0 <? Z.shiftr size 7) eqn:Hcont.
    + cbn [map app] in Hin.
      rewrite (bind_val _ _ _ _ _ (sock_recv1_spec c s _ _ Hs Hin)).
      cbn [unpack1]. unfold bind at 1. cbn [ret].
      rewrite byte_val_of by (apply lor_128_range; exact Hland).
      rewrite high_of_continued, low7_of_continued.
      cbn [Z.eqb].
      set (c1 := set_sock _ c).
      rewrite (IH n (i + 1) _ (Z.shiftr size 7) c1
                 (mkSocket (map byte_of (varint room (Z.shiftr size 7)) ++ rest)
                           (peer_closed s))
                 rest); try reflexivity; try lia.
      * unfold c1. client_simpl. f_equal. f_equal.
        rewrite <- Z.lor_assoc. f_equal.
        replace (7 * (i + 1)) with (7 + 7 * i) by lia.
        rewrite <- Z.shiftl_shiftl by lia.
        rewrite <- Z.shiftl_lor. rewrite split_low7. reflexivity.
      * split; [apply Z.shiftr_nonneg; lia|].
        apply shiftr7_small; [lia|].
        replace (Z.of_nat room + 1 + 1) with (Z.of_nat (S room) + 1) by lia.
        apply Hsize.
    + cbn [map app] in Hin.
      rewrite (bind_val _ _ _ _ _ (sock_recv1_spec c s _ rest Hs Hin)).
      cbn [unpack1]. unfold bind at 1. cbn [ret].
      rewrite byte_val_of by lia. rewrite high_of_last, low7_of_last.
      cbn [Z.eqb]. unfold ret. rewrite low7_of_small by lia. reflexivity.
Qed.

Lemma _recv_len_varint c s size rest :
  0 <= size <= MAX_REMAINING ->
  sock c = Some s ->
  inbound s = map byte_of (varint 3 size) ++ rest ->
  _recv_len c = (Val size, set_sock (Some (mkSocket rest (peer_closed s))) c).
Proof.
  intros Hsize Hs Hin. rewrite MAX_REMAINING_eq in Hsize. unfold _recv_len.
  rewrite (_recv_len_loop_spec 3 4 0 0 size c s rest); try assumption; try lia.
  rewrite Z.lor_0_l. simpl (7 * 0). rewrite Z.shiftl_0_r. reflexivity.
Qed.

(** ** The length of the encoding *)

Lemma shiftr7_zero_iff (x : Z) : 0 <= x -> (Z.shiftr x 7 <= 0 <-> x < 128).
Proof.
  intros Hx. rewrite Z.shiftr_div_pow2 by lia. change (2 ^ 7) with 128.
  split; intros H.
  - Z.to_euclidean_division_equations. lia.
  - Z.to_euclidean_division_equations. lia.
Qed.

Lemma bit_length_small (x : Z) :
  0 <= x < 128 -> Z.max 1 (ceil_div (bit_length x) 7) = 1.
Proof.
  intros Hx. unfold bit_length, ceil_div.
  destruct (Z.eqb_spec x 0) as [->|Hn]; [reflexivity|].
  rewrite Z.abs_eq by lia.
  assert (Z.log2 x < 7) by (apply Z.log2_lt_pow2; lia).
  pose proof (Z.log2_nonneg x).
  Z.to_euclidean_division_equations. lia.
Qed.

Lemma bit_length_shiftr7 (x : Z) :
  128 <= x -> bit_length (Z.shiftr x 7) = bit_length x - 7.
Proof.
  intros Hx. unfold bit_length.
  assert (H7 : 7 <= Z.log2 x) by (apply Z.log2_le_pow2; lia).
  assert (Hs : 0 < Z.shiftr x 7).
  { pose proof (shiftr7_zero_iff x ltac:(lia)).
    pose proof (Z.shiftr_nonneg x 7). lia. }
  replace (Z.shiftr x 7 =? 0) with false by lia.
  replace (x =? 0) with false by lia.
  rewrite !Z.abs_eq by lia.
  rewrite Z.log2_shiftr by lia. lia.
Qed.

Lemma varint_length_bits room :
  forall size,
    0 <= size < 128 ^ (Z.of_nat room + 1) ->
    Z.of_nat (List.length (varint room size))
    = Z.max 1 (ceil_div (bit_length size) 7).
Proof.
  induction room as [|room IH]; intros size Hsize; cbn [varint];
    pose proof (shiftr7_zero_iff size ltac:(lia)) as Hz;
    destruct (0 <? Z.shiftr size 7) eqn:Hc.
  - change (128 ^ (Z.of_nat 0 + 1)) with 128 in Hsize. lia.
  - rewrite bit_length_small by lia. reflexivity.
  - cbn [List.length]. rewrite Nat2Z.inj_succ, IH.
    + rewrite bit_length_shiftr7 by lia.
      assert (8 <= bit_length size).
      { unfold bit_length. replace (size =? 0) with false by lia.
        rewrite Z.abs_eq by lia.
        assert (7 <= Z.log2 size) by (apply Z.log2_le_pow2; lia). lia. }
      unfold ceil_div. Z.to_euclidean_division_equations. lia.
    + split; [apply Z.shiftr_nonneg; lia|].
      apply shiftr7_small; [lia|].
      replace (Z.of_nat room + 1 + 1) with (Z.of_nat (S room) + 1) by lia.
      apply Hsize.
  - rewrite bit_length_small by lia. reflexivity.
Qed.

(** C5: for every size from 0 to 268435454, [remaining_len] returns an
    encoding whose number of bytes is the rounded-up seventh of the size's
    bit length, and at least 1, and [_recv_len], reading that encoding from
    the socket, returns the size and leaves what follows it unread. *)
Theorem remaining_len_recv_len_roundtrip (c : Client) (size : Z) :
  List.length (_size_buf c) = 4%nat ->
  0 <= size <= 268435454 ->
  exists enc c',
    remaining_len size c = (Val enc, c') /\
    Z.of_nat (List.length enc) = Z.max 1 (ceil_div (bit_length size) 7) /\
    forall d rest closed,
      sock d = Some (mkSocket (enc ++ rest) closed) ->
      _recv_len d = (Val size, set_sock (Some (mkSocket rest closed)) d).
Proof.
  intros Hbuf Hsize.
  assert (Hmax : 0 <= size <= MAX_REMAINING)
    by (rewrite MAX_REMAINING_eq; change (128 ^ 4 - 1) with 268435455; lia).
  destruct (remaining_len_ok c size Hbuf (proj2 Hmax)) as (buf & _ & Henc).
  exists (map byte_of (varint 3 size)), (set_size_buf buf c).
  split; [exact Henc|]. split.
  - rewrite length_map. apply varint_length_bits.
    change (128 ^ (Z.of_nat 3 + 1)) with 268435456. lia.
  - intros d rest closed Hd.
    apply (_recv_len_varint d _ size rest Hmax Hd). reflexivity.
Qed.

Lemma remaining_len_recv_len_roundtrip_witness :
  exists enc c',
    remaining_len 321 (new_client "" true) = (Val enc, c') /\
    Z.of_nat (List.length enc) = Z.max 1 (ceil_div (bit_length 321) 7) /\
    forall d rest closed,
      sock d = Some (mkSocket (enc ++ rest) closed) ->
      _recv_len d = (Val 321, set_sock (Some (mkSocket rest closed)) d).
Proof.
  apply (remaining_len_recv_len_roundtrip (new_client "" true) 321).
  - reflexivity.
  - lia.
Defined.

(** ** The ceiling of remaining_len *)

(** C9, as stated, fails at 268435455: the assertion admits that size, which
    is encoded in four bytes. *)
Lemma remaining_len_268435455_accepted :
  fst (remaining_len 268435455 (new_client "" true))
  = Val [xff; xff; xff; x7f]%byte.
Proof. vm_compute. reflexivity. Qed.

(** C9, amended: for every size greater than 268435455 the assertion of
    [remaining_len] fails, an AssertionError, before any byte is written:
    the client is left as it was. *)
Theorem remaining_len_rejects_oversize (c : Client) (size : Z) :
  268435455 < size ->
  remaining_len size c = (Exn AssertionError, c).
Proof.
  intros H. apply remaining_len_too_big.
  rewrite MAX_REMAINING_eq. change (128 ^ 4 - 1) with 268435455. exact H.
Qed.

Lemma remaining_len_rejects_oversize_witness :
  remaining_len 268435456 (new_client "" true)
  = (Exn AssertionError, new_client "" true).
Proof.
  apply (remaining_len_rejects_oversize (new_client "" true) 268435456). lia.
Defined.

(** ** _send *)

Lemma _send_spec c s ctrl_typ flags pl :
  sock c = Some s ->
  List.length (_size_buf c) = 4%nat ->
  Z.of_nat (List.length pl) <= MAX_REMAINING ->
  0 <= Z.lor (Z.shiftl ctrl_typ 4) (sent_flags ctrl_typ flags) < 256 ->
  exists buf,
    List.length buf = 4%nat /\
    _send ctrl_typ flags pl c
    = (Val tt,
       add_event (EvSend pl)
         (add_event
            (EvSend (byte_of (Z.lor (Z.shiftl ctrl_typ 4)
                                    (sent_flags ctrl_typ flags))
                     :: map byte_of (varint 3 (Z.of_nat (List.length pl)))))
            (set_size_buf buf c))).
Proof.
  intros Hs Hbuf Hlen Hhdr.
  destruct (remaining_len_ok c _ Hbuf Hlen) as (buf & Hbuflen & Henc).
  exists buf. split; [exact Hbuflen|].
  unfold _send. fold (sent_flags ctrl_typ flags).
  cbn [mk_bytes]. rewrite (mk_byte_some _ Hhdr). cbn [lift].
  unfold bind at 1. cbn [ret].
  unfold bind at 1. unfold the_sock at 1, bind at 1, get at 1.
  rewrite Hs. cbn [lift ret].
  rewrite (bind_val _ _ _ _ _ Henc).
  unfold sock_sendall, the_sock, bind, get, modify. client_simpl.
  rewrite Hs. reflexivity.
Qed.

(** C8: whatever flags the caller passes, a SUBSCRIBE, UNSUBSCRIBE or PUBREL
    packet goes out as if 2 had been passed, and the fixed-header byte sent
    has the packet type in its high half and the flags 0b0010 in its low
    half. *)
Theorem send_overrides_flags (c : Client) (s : Socket) (ctrl_typ flags : Z)
    (pl : bytes) :
  ctrl_typ = P_SUBSCRIBE \/ ctrl_typ = P_UNSUBSCRIBE \/ ctrl_typ = P_PUBREL ->
  sock c = Some s ->
  List.length (_size_buf c) = 4%nat ->
  Z.of_nat (List.length pl) <= MAX_REMAINING ->
  _send ctrl_typ flags pl c = _send ctrl_typ 2 pl c /\
  exists hdr len c',
    _send ctrl_typ flags pl c = (Val tt, c') /\
    trace c' = trace c ++ [EvSend (hdr :: len); EvSend pl] /\
    Z.shiftr (byte_val hdr) 4 = ctrl_typ /\
    Z.land (byte_val hdr) 15 = 2.
Proof.
  intros Htyp Hs Hbuf Hlen.
  assert (Hflags : sent_flags ctrl_typ flags = 2)
    by (destruct Htyp as [->|[->| ->]]; reflexivity).
  assert (Hhdr : 0 <= Z.lor (Z.shiftl ctrl_typ 4) (sent_flags ctrl_typ flags) < 256)
    by (rewrite Hflags; destruct Htyp as [->|[->| ->]]; vm_compute; split;
        congruence).
  split.
  - unfold _send. fold (sent_flags ctrl_typ flags) (sent_flags ctrl_typ 2).
    rewrite Hflags.
    replace (sent_flags ctrl_typ 2) with 2
      by (destruct Htyp as [->|[->| ->]]; reflexivity).
    reflexivity.
  - destruct (_send_spec c s ctrl_typ flags pl Hs Hbuf Hlen Hhdr)
      as (buf & _ & Hsend).
    eexists _, _, _. split; [exact Hsend|].
    client_simpl. rewrite <- app_assoc. split; [reflexivity|].
    rewrite byte_val_of by exact Hhdr. rewrite Hflags.
    destruct Htyp as [->|[->| ->]]; split; reflexivity.
Qed.

Lemma send_overrides_flags_witness :
  _send P_SUBSCRIBE 13 [x00; x07]%byte online_client
  = _send P_SUBSCRIBE 2 [x00; x07]%byte online_client /\
  exists hdr len c',
    _send P_SUBSCRIBE 13 [x00; x07]%byte online_client = (Val tt, c') /\
    trace c' = trace online_client ++ [EvSend (hdr :: len); EvSend [x00; x07]%byte] /\
    Z.shiftr (byte_val hdr) 4 = P_SUBSCRIBE /\
    Z.land (byte_val hdr) 15 = 2.
Proof.
  apply (send_overrides_flags online_client (mkSocket [] false) P_SUBSCRIBE 13
           [x00; x07]%byte).
  - left. reflexivity.
  - reflexivity.
  - reflexivity.
  - vm_compute. discriminate.
Defined.

(** ** The packet identifier generator *)

Lemma next_packet_id_spec (p : Z) :
  1 <= p <= 65535 -> next_packet_id p = p mod 65535 + 1.
Proof.
  intros Hp. unfold next_packet_id, py_or, truthy.
  change (Z.land (p + 1) 0xffff) with (Z.land (p + 1) (Z.ones 16)).
  rewrite Z.land_ones by lia. change (2 ^ 16) with 65536.
  destruct (Z.eq_dec p 65535) as [->|Hne]; [reflexivity|].
  rewrite (Z.mod_small (p + 1)) by lia. rewrite (Z.mod_small p) by lia.
  replace (p + 1 =? 0) with false by lia. reflexivity.
Qed.

Lemma id_after_range (k : nat) : 1 <= id_after k <= 65535.
Proof.
  unfold id_after. pose proof (Z.mod_pos_bound (Z.of_nat k) 65535). lia.
Qed.

Lemma next_id_after (k : nat) : next_packet_id (id_after k) = id_after (S k).
Proof.
  rewrite next_packet_id_spec by apply id_after_range.
  unfold id_after. rewrite Nat2Z.inj_succ. unfold Z.succ.
  rewrite Z.add_mod_idemp_l by lia. reflexivity.
Qed.

Lemma set_packet_id_same (c : Client) : set_packet_id (_packet_id c) c = c.
Proof. destruct c. reflexivity. Qed.

Lemma advances_spec (n : nat) :
  forall k c,
    _packet_id c = id_after k ->
    advances n c
    = (Val (map id_after (seq (S k) n)), set_packet_id (id_after (k + n)) c).
Proof.
  induction n as [|n IH]; intros k c Hc.
  - cbn [advances seq map ret]. rewrite Nat.add_0_r, <- Hc, set_packet_id_same.
    reflexivity.
  - cbn [advances seq map].
    unfold bind at 1, advance_packet_id at 1, bind at 1, get at 1, modify at 1.
    unfold bind at 1, get at 1. client_simpl.
    rewrite Hc, next_id_after.
    rewrite (bind_val _ _ _ _ _
               (IH (S k) (set_packet_id (id_after (S k)) c) eq_refl)).
    unfold ret. client_simpl.
    replace (S k + n)%nat with (k + S n)%nat by lia. reflexivity.
Qed.

(** C6, as stated, fails at the first advance: a fresh client holds 1 and
    advances before it issues, so the first identifier is 2. *)
Lemma first_packet_id_is_2 :
  fst (advances 1 (new_client "" true)) = Val [2].
Proof. reflexivity. Qed.

(** C6, amended: on a fresh client, the identifier yielded by the k-th
    advance, counting from 1, is [k mod 65535 + 1], for any number of
    advances.  The sequence starts at 2, each identifier is followed by the
    next higher one except 65535, which is followed by 1, and all of them
    lie between 1 and 65535, so 0 is never yielded. *)
Theorem packet_id_sequence (n k : nat) (cid : string) (clean : bool) :
  fst (advances n (new_client cid clean)) = Val (map id_after (seq 1 n)) /\
  Forall (fun id => 1 <= id <= 65535) (map id_after (seq 1 n)) /\
  id_after 1 = 2 /\
  id_after (S k) = (if id_after k =? 65535 then 1 else id_after k + 1).
Proof.
  split; [|split; [|split]].
  - rewrite (advances_spec n 0 (new_client cid clean) eq_refl). reflexivity.
  - apply Forall_forall. intros id Hin. apply in_map_iff in Hin.
    destruct Hin as (j & <- & _). apply id_after_range.
  - reflexivity.
  - rewrite <- next_id_after. pose proof (id_after_range k).
    destruct (Z.eqb_spec (id_after k) 65535) as [->|Hne]; [reflexivity|].
    rewrite next_packet_id_spec by lia. rewrite Z.mod_small by lia.
    reflexivity.
Qed.

(** [subscribe] issues the successor of the identifier in force, whether
    or not the packet can then be built and sent. *)
Lemma subscribe_issues_next topics qos c :
  _packet_id (snd (subscribe topics qos c)) = next_packet_id (_packet_id c) /\
  forall id,
    fst (subscribe topics qos c) = Val id ->
    id = next_packet_id (_packet_id c).
Proof.
  assert (H : forall o c',
             subscribe topics qos c = (o, c') ->
             _packet_id c' = next_packet_id (_packet_id c) /\
             forall id, o = Val id -> id = next_packet_id (_packet_id c)).
  { unfold subscribe.
    unfold bind at 1, advance_packet_id at 1, bind at 1, get at 1, modify at 1.
    set (c1 := set_packet_id (next_packet_id (_packet_id c)) c).
    assert (Hc1 : _packet_id c1 = next_packet_id (_packet_id c))
      by reflexivity.
    unfold bind at 1, get at 1.
    destruct (int_to_bytes (_packet_id c1) 2) as [r|]; cbn [lift].
    2: { unfold bind, raise. intros o c' E. injection E as <- <-.
         split; [exact Hc1|discriminate]. }
    unfold bind at 1. cbn [ret].
    assert (H1 : same_packet_id c1 (snd (subscribe_topics topics qos r c1)))
      by (apply preserves_subscribe_topics; unfold same_packet_id; intros;
          client_simpl; congruence).
    unfold bind at 1.
    destruct (subscribe_topics topics qos r c1) as [[r'|e] c2];
      cbn [snd] in H1; unfold same_packet_id in H1.
    2: { intros o c' E. injection E as <- <-.
         split; [congruence|discriminate]. }
    assert (H2 : same_packet_id c2 (snd (_send P_SUBSCRIBE 0 r' c2)))
      by (apply preserves__send; unfold same_packet_id; intros; client_simpl;
          congruence).
    unfold bind at 1.
    destruct (_send P_SUBSCRIBE 0 r' c2) as [[u|e] c3];
      cbn [snd] in H2; unfold same_packet_id in H2.
    2: { intros o c' E. injection E as <- <-.
         split; [congruence|discriminate]. }
    unfold bind, get, ret. intros o c' E. injection E as <- <-.
    split; [congruence|]. intros id Hid. injection Hid as <-. congruence. }
  destruct (subscribe topics qos c) as [o c'] eqn:E.
  exact (H o c' eq_refl).
Qed.

(** ** publish *)

Lemma publish_qos0_spec c s topic message retain :
  sock c = Some s ->
  List.length (_size_buf c) = 4%nat ->
  retain = 0 \/ retain = 1 ->
  Z.of_nat (List.length (encode_utf8 topic)) < 65536 ->
  Z.of_nat (List.length (publish_payload topic message None)) <= MAX_REMAINING ->
  exists c',
    publish topic message 0 retain c = (Val PyNone, c') /\
    _pub_queue c' = _pub_queue c /\
    _packet_id c' = _packet_id c /\
    exists hdr,
      trace c' = trace c ++ [EvSend hdr;
                             EvSend (publish_payload topic message None)].
Proof.
  intros Hs Hbuf Hretain Htopic Hlen.
  unfold publish. rewrite int_to_bytes_2 by lia. cbn [lift truthy Z.eqb negb].
  unfold bind at 1. cbn [ret]. unfold bind at 1. cbn [ret].
  assert (Hhdr : 0 <= Z.lor (Z.shiftl P_PUBLISH 4)
                        (sent_flags P_PUBLISH (Z.lor (Z.shiftl 0 1) retain))
                 < 256)
    by (destruct Hretain as [->| ->]; vm_compute; split; congruence).
  destruct (_send_spec c s P_PUBLISH (Z.lor (Z.shiftl 0 1) retain)
              (publish_payload topic message None) Hs Hbuf Hlen Hhdr)
    as (buf & _ & Hsend).
  unfold publish_payload in Hsend. cbn [app] in Hsend.
  rewrite <- !app_assoc. cbn [app].
  rewrite (bind_val _ _ _ _ _ Hsend).
  eexists. split; [reflexivity|]. client_simpl.
  split; [reflexivity|]. split; [reflexivity|].
  eexists. rewrite <- app_assoc. reflexivity.
Qed.

Lemma publish_qos1_spec c s topic message retain :
  sock c = Some s ->
  List.length (_size_buf c) = 4%nat ->
  retain = 0 \/ retain = 1 ->
  1 <= _packet_id c <= 65535 ->
  Z.of_nat (List.length (encode_utf8 topic)) < 65536 ->
  Z.of_nat (List.length
              (publish_payload topic message
                 (Some (next_packet_id (_packet_id c))))) <= MAX_REMAINING ->
  exists c',
    publish topic message 1 retain c
    = (Val (PyInt (next_packet_id (_packet_id c))), c') /\
    _pub_queue c'
    = _pub_queue c
        ++ [(next_packet_id (_packet_id c), Z.lor 2 retain,
             publish_payload topic message
               (Some (next_packet_id (_packet_id c))))] /\
    _packet_id c' = next_packet_id (_packet_id c) /\
    exists hdr,
      trace c'
      = trace c
          ++ [EvSend hdr;
              EvSend (publish_payload topic message
                        (Some (next_packet_id (_packet_id c))))].
Proof.
  intros Hs Hbuf Hretain Hid Htopic Hlen.
  set (id := next_packet_id (_packet_id c)) in *.
  assert (Hidr : 0 <= id < 65536).
  { unfold id. rewrite next_packet_id_spec by lia.
    pose proof (Z.mod_pos_bound (_packet_id c) 65535). lia. }
  unfold publish. rewrite int_to_bytes_2 by lia.
  cbn [lift truthy Z.eqb negb].
  unfold bind at 1. cbn [ret].
  unfold bind at 1, bind at 1, advance_packet_id at 1, bind at 1, get at 1,
    modify at 1.
  unfold bind at 1, get at 1. client_simpl. fold id.
  rewrite int_to_bytes_2 by lia. cbn [lift].
  unfold bind at 1. cbn [ret].
  set (c1 := set_packet_id id c).
  assert (Hhdr : 0 <= Z.lor (Z.shiftl P_PUBLISH 4)
                        (sent_flags P_PUBLISH (Z.lor (Z.shiftl 1 1) retain))
                 < 256)
    by (destruct Hretain as [->| ->]; vm_compute; split; congruence).
  destruct (_send_spec c1 s P_PUBLISH (Z.lor (Z.shiftl 1 1) retain)
              (publish_payload topic message (Some id)) Hs Hbuf Hlen Hhdr)
    as (buf & _ & Hsend).
  unfold publish_payload in Hsend.
  rewrite <- !app_assoc. cbn [app] in *.
  rewrite (bind_val _ _ _ _ _ Hsend).
  unfold bind, get, modify, ret. client_simpl.
  eexists. split; [reflexivity|]. client_simpl.
  split; [reflexivity|]. split; [reflexivity|].
  eexists. rewrite <- app_assoc. reflexivity.
Qed.

(** C3 at [publish('a/b', 'hi', qos=0)] on a connected client: the call
    returns [None], where the docstring and the specification promise 0.
    The queue of in-flight publishes is left as it was. *)
Theorem publish_qos0_returns_None :
  fst (publish "a/b" "hi" 0 0 online_client) = Val PyNone /\
  fst (publish "a/b" "hi" 0 0 online_client) <> Val (PyInt 0) /\
  _pub_queue (snd (publish "a/b" "hi" 0 0 online_client))
  = _pub_queue online_client.
Proof.
  split; [vm_compute; reflexivity|].
  split; [vm_compute; discriminate|].
  vm_compute. reflexivity.
Qed.

(** ** _unpack_publish on what publish builds *)

Lemma _unpack_publish_payload topic message id qos retain :
  Z.of_nat (List.length (encode_utf8 topic)) < 65536 ->
  _unpack_publish
    (publish_payload topic message (if truthy qos then Some id else None))
    retain qos
  = (if truthy qos
     then PyBytes (be2 (Z.of_nat (List.length (encode_utf8 topic))))
     else PyInt 0,
     mkMessage topic message qos retain).
Proof.
  intros Htopic. unfold _unpack_publish, publish_payload.
  set (t := encode_utf8 topic) in *.
  change (be2 (Z.of_nat (List.length t)) ++ ?r)
    with (byte_of (Z.of_nat (List.length t) / 256)
          :: byte_of (Z.of_nat (List.length t) mod 256) :: r).
  cbn [firstn skipn].
  fold (be2 (Z.of_nat (List.length t))).
  rewrite int_from_bytes_be2 by lia. rewrite Nat2Z.id.
  rewrite firstn_app, firstn_all, Nat.sub_diag, skipn_app, skipn_all,
    Nat.sub_diag.
  cbn [firstn skipn app]. rewrite app_nil_r.
  unfold t, decode_utf8, encode_utf8. rewrite string_of_list_byte_of_string.
  destruct (truthy qos); cbn [app skipn be2];
    rewrite string_of_list_byte_of_string; reflexivity.
Qed.

(** C2 at topic 'a/b', payload 'hi', qos 1: [publish] issues identifier 2
    and builds a payload from which [_unpack_publish] returns, in place of
    the identifier, the two bytes of the topic length, 00 03.  The message
    itself is recovered. *)
Theorem unpack_publish_returns_topic_length :
  exists built,
    _pub_queue (snd (publish "a/b" "hi" 1 0 online_client)) = [(2, 2, built)] /\
    _unpack_publish built 0 1
    = (PyBytes [x00; x03]%byte, mkMessage "a/b" "hi" 1 0) /\
    fst (_unpack_publish built 0 1) <> PyInt 2 /\
    fst (_unpack_publish built 0 1) <> PyBytes [x00; x02]%byte.
Proof.
  eexists. split; [vm_compute; reflexivity|].
  split; [vm_compute; reflexivity|].
  split; vm_compute; discriminate.
Qed.

(** ** The handshake *)

(** [reconnect] on a client that [connect] has configured, the broker
    answering with four bytes: the CONNECT packet goes out, and the outcome
    is decided by the type of the answer and then by its return code.
    [connected] is set between the two checks. *)
Lemma reconnect_spec c h p k ack len fl rc rest closed :
  host c = Some h ->
  port c = Some p ->
  keepalive c = Some k ->
  0 <= k < 65536 ->
  Z.of_nat (List.length (encode_utf8 (client_id c))) < 65536 ->
  List.length (_size_buf c) = 4%nat ->
  exists c1,
    connected c1 = connected c /\
    reconnect (mkSocket (ack :: len :: fl :: rc :: rest) closed) c
    = if Z.shiftr (byte_val ack) 4 =? P_CONNACK then
        if byte_val rc =? 0 then
          (Val (Z.land (byte_val fl) 1),
           set_sock (Some (mkSocket rest closed)) (set_connected true c1))
        else
          (Exn AssertionError,
           set_sock (Some (mkSocket rest closed)) (set_connected true c1))
      else (Exn AssertionError, c1).
Proof.
  intros Hh Hp Hk Hkr Hcid Hbuf.
  set (net := mkSocket (ack :: len :: fl :: rc :: rest) closed).
  unfold reconnect. unfold bind at 1, get at 1.
  set (c0 := snd ((match sock c with
                   | Some _ => modify (add_event EvClose)
                   | None => ret tt
                   end) c)).
  assert (H0 : (match sock c with
                | Some _ => modify (add_event EvClose)
                | None => ret tt
                end) c = (Val tt, c0))
    by (unfold c0; destruct (sock c); reflexivity).
  assert (Hbuf0 : _size_buf c0 = _size_buf c)
    by (unfold c0; destruct (sock c); reflexivity).
  assert (Hconn0 : connected c0 = connected c)
    by (unfold c0; destruct (sock c); reflexivity).
  rewrite (bind_val _ _ _ _ _ H0).
  unfold bind at 1, modify at 1.
  rewrite Hk, Hh, Hp. cbn [lift].
  do 3 (unfold bind at 1; cbn [ret]).
  unfold bind at 1, modify at 1.
  assert (Hflag : 0 <= Z.shiftl (Z.b2z (clean_session c)) 1 < 256)
    by (destruct (clean_session c); vm_compute; split; congruence).
  rewrite (mk_byte_some _ Hflag). cbn [lift].
  unfold bind at 1. cbn [ret].
  rewrite (int_to_bytes_2 k Hkr). cbn [lift].
  unfold bind at 1. cbn [ret].
  rewrite int_to_bytes_2 by lia. cbn [lift].
  unfold bind at 1. cbn [ret].
  set (c2 := add_event (EvOpen h p) (set_sock (Some net) c0)).
  match goal with
  | |- context [_send P_CONNECT 0 ?pl] => set (remaining := pl)
  end.
  assert (Hlen : Z.of_nat (List.length remaining) <= MAX_REMAINING).
  { unfold remaining. rewrite !length_app. cbn [List.length be2].
    rewrite MAX_REMAINING_eq. change (128 ^ 4 - 1) with 268435455. lia. }
  destruct (_send_spec c2 net P_CONNECT 0 remaining eq_refl
              ltac:(unfold c2; client_simpl; congruence) Hlen
              ltac:(vm_compute; split; congruence))
    as (buf & _ & Hsend).
  rewrite (bind_val _ _ _ _ _ Hsend).
  match type of Hsend with _ = (_, ?c) => set (c3 := c) end.
  rewrite (bind_val _ _ _ _ _
             (sock_recv1_spec c3 net ack (len :: fl :: rc :: rest)
                eq_refl eq_refl)).
  cbn [unpack1]. unfold bind at 1. cbn [ret peer_closed net].
  set (c4 := set_sock (Some (mkSocket (len :: fl :: rc :: rest) closed)) c3).
  exists c4. split.
  { unfold c4, c3, c2. client_simpl. exact Hconn0. }
  destruct (Z.shiftr (byte_val ack) 4 =? P_CONNACK); cbn [py_assert];
    [|reflexivity].
  unfold bind at 1. cbn [ret]. unfold bind at 1, modify at 1.
  rewrite (bind_val _ _ _ _ _
             (sock_recv_spec (set_connected true c4)
                (mkSocket (len :: fl :: rc :: rest) closed)
                [len; fl; rc] rest eq_refl eq_refl
                ltac:(discriminate))).
  cbn [unpack3]. unfold bind at 1. cbn [ret peer_closed].
  destruct (byte_val rc =? 0); reflexivity.
Qed.

(** C4 at [connect('broker', 1883, 60)] on a fresh client, answered by a
    CONNACK with return code 5: the call fails on the assertion about the
    return code, and [connected], false before the call, has been set to
    true by then and stays so. *)
Theorem connect_refused_leaves_connected_set :
  fst (connect "broker" 1883 60 (mkSocket connack_refused false)
         (new_client "" true))
  = Exn AssertionError /\
  connected (new_client "" true) = false /\
  connected (snd (connect "broker" 1883 60 (mkSocket connack_refused false)
                    (new_client "" true)))
  = true.
Proof.
  split; [vm_compute; reflexivity|]. split; vm_compute; reflexivity.
Qed.

(** The handshake of the specification: [connect('broker', 1883, 60)] on a
    fresh client sends 10 0C and then 00 04 'MQTT' 04 02 00 3C 00 00, and on
    20 02 00 00 returns 0 with [connected] set. *)
Example connect_accepted :
  connect "broker" 1883 60 (mkSocket connack_accepted false)
    (new_client "" true)
  = (Val 0, online_client) /\
  trace online_client
  = [EvOpen "broker" 1883;
     EvSend [x10; x0c]%byte;
     EvSend [x00; x04; x4d; x51; x54; x54; x04; x02; x00; x3c; x00; x00]%byte] /\
  connected online_client = true.
Proof. split; [|split]; vm_compute; reflexivity. Qed.

(** ** One round of the read loop *)

Lemma loop_read_body_empty_packet c l ctrl rest closed :
  sock c = Some (mkSocket (ctrl :: x00%byte :: rest) closed) ->
  loop_read_body l c
  = handlers (byte_val ctrl) l (set_sock (Some (mkSocket rest closed)) c).
Proof.
  intros Hs. unfold loop_read_body.
  rewrite (bind_val _ _ _ _ _
             (sock_recv1_spec c _ ctrl (x00%byte :: rest) Hs eq_refl)).
  cbn [unpack1 ret peer_closed].
  set (c1 := set_sock (Some (mkSocket (x00%byte :: rest) closed)) c).
  assert (Hlen : _recv_len c1
                 = (Val 0, set_sock (Some (mkSocket rest closed)) c1)).
  { apply (_recv_len_varint c1 (mkSocket (x00%byte :: rest) closed) 0 rest).
    - rewrite MAX_REMAINING_eq. lia.
    - reflexivity.
    - reflexivity. }
  rewrite (bind_val _ _ _ _ _ Hlen).
  cbn [truthy Z.eqb negb]. unfold bind at 1. cbn [ret]. reflexivity.
Qed.

Lemma loop_read_body_packet c l ctrl d rest closed :
  d <> [] ->
  Z.of_nat (List.length d) <= MAX_REMAINING ->
  sock c
  = Some (mkSocket (ctrl :: map byte_of (varint 3 (Z.of_nat (List.length d)))
                         ++ d ++ rest) closed) ->
  loop_read_body l c
  = handlers (byte_val ctrl) (mkLocals (Some d) (ping_resp l))
      (set_sock (Some (mkSocket rest closed)) c).
Proof.
  intros Hd Hmax Hs. unfold loop_read_body.
  rewrite (bind_val _ _ _ _ _ (sock_recv1_spec c _ ctrl _ Hs eq_refl)).
  cbn [unpack1 ret peer_closed].
  set (c1 := set_sock _ c).
  assert (Hlen : _recv_len c1
                 = (Val (Z.of_nat (List.length d)),
                    set_sock (Some (mkSocket (d ++ rest) closed)) c1)).
  { apply (_recv_len_varint c1
             (mkSocket (map byte_of (varint 3 (Z.of_nat (List.length d)))
                          ++ d ++ rest) closed)
             (Z.of_nat (List.length d)) (d ++ rest)).
    - lia.
    - reflexivity.
    - reflexivity. }
  rewrite (bind_val _ _ _ _ _ Hlen).
  assert (Ht : truthy (Z.of_nat (List.length d)) = true).
  { unfold truthy. destruct d; [contradiction|]. cbn [List.length].
    apply negb_true_iff, Z.eqb_neq. lia. }
  rewrite Ht.
  set (c2 := set_sock _ c1).
  unfold bind at 1, bind at 1.
  rewrite (sock_recv_spec c2 (mkSocket (d ++ rest) closed) d rest
             eq_refl eq_refl Hd).
  cbn [ret peer_closed]. reflexivity.
Qed.

(** ** An inbound PUBLISH *)

(** C1 at the packet [publish_a_b_hi], a PUBLISH with topic 'a/b', qos 1,
    packet identifier 1 and payload 'hi', pending on a connected client
    with the default callback: [loop_read] sends one PUBACK, whose payload is
    00 03, the topic length, where the specification and the protocol want the
    identifier 00 01; it then calls [on_message] once, with
    [Message('a/b', 'hi', 1, 0)], and returns [False]. *)
Theorem loop_read_puback_carries_topic_length :
  fst (loop_read (receiving publish_a_b_hi)) = Val (Some false) /\
  trace (snd (loop_read (receiving publish_a_b_hi)))
  = trace online_client
      ++ [EvSend [x40; x02]%byte;
          EvSend [x00; x03]%byte;
          EvCallback (mkMessage "a/b" "hi" 1 0);
          EvPrint [PyStr "a/b"; PyStr "hi"]].
Proof.
  split; vm_compute; reflexivity.
Qed.

(** ** The PUBACK handler *)

Lemma find_ack_some packet_id q :
  forall i j,
    find_ack packet_id q i = Some j ->
    exists q1 e q2,
      q = q1 ++ e :: q2 /\
      j = (i + List.length q1)%nat /\
      entry_id e = packet_id /\
      Forall (fun e' => entry_id e' <> packet_id) q1.
Proof.
  induction q as [|[[p f] b] q IH]; intros i j H; [discriminate|].
  cbn [find_ack] in H. destruct (Z.eqb_spec packet_id p) as [->|Hne].
  - injection H as <-. exists [], (p, f, b), q.
    repeat split; [cbn; lia | constructor].
  - destruct (IH _ _ H) as (q1 & e & q2 & -> & -> & He & Hq1).
    exists ((p, f, b) :: q1), e, q2.
    repeat split; [cbn; lia | exact He |].
    constructor; [cbn; congruence | exact Hq1].
Qed.

Lemma find_ack_none packet_id q :
  forall i,
    find_ack packet_id q i = None ->
    Forall (fun e => entry_id e <> packet_id) q.
Proof.
  induction q as [|[[p f] b] q IH]; intros i H; [constructor|].
  cbn [find_ack] in H. destruct (Z.eqb_spec packet_id p) as [->|Hne];
    [discriminate|].
  constructor; [cbn; congruence | exact (IH _ H)].
Qed.

Lemma list_del_middle {A} (q1 : list A) e q2 :
  list_del (List.length q1) (q1 ++ e :: q2) = q1 ++ q2.
Proof.
  unfold list_del.
  rewrite firstn_app, firstn_all, Nat.sub_diag. cbn [firstn].
  rewrite app_nil_r. f_equal.
  induction q1 as [|a q1 IH]; [reflexivity|]. exact IH.
Qed.

Lemma handlers_puback c l ctrl_pkt d :
  Z.shiftr ctrl_pkt 4 = P_PUBACK ->
  data l = Some d ->
  handlers ctrl_pkt l c
  = (Val (Continue, l),
     match find_ack (int_from_bytes d) (_pub_queue c) 0 with
     | Some i => set_pub_queue (list_del i (_pub_queue c)) c
     | None =>
         add_event (EvPrint [PyStr "WTF puback for unknown packet_id:";
                             PyInt (int_from_bytes d)]) c
     end).
Proof.
  intros Htyp Hd. unfold handlers. rewrite Htyp.
  cbn [P_PUBACK P_PINGRESP P_SUBACK P_PUBLISH Z.eqb Pos.eqb].
  unfold read_data. rewrite Hd. cbn [lift].
  unfold bind at 1. cbn [ret]. unfold bind at 1. cbn [get].
  destruct (find_ack (int_from_bytes d) (_pub_queue c) 0); reflexivity.
Qed.

Lemma handlers_unbound_data c l ctrl_pkt :
  Z.shiftr ctrl_pkt 4 = P_SUBACK \/ Z.shiftr ctrl_pkt 4 = P_PUBACK ->
  data l = None ->
  handlers ctrl_pkt l c = (Exn NameError, c).
Proof.
  intros [Htyp|Htyp] Hd; unfold handlers; rewrite Htyp;
    cbn [P_PUBACK P_PINGRESP P_SUBACK P_PUBLISH Z.eqb Pos.eqb];
    unfold read_data; rewrite Hd; reflexivity.
Qed.

(** A round of the read loop on a PUBACK with any payload [d] that is not
    empty: [d] is read as the acknowledged identifier, and the first entry
    of the queue that carries it, if there is one, is deleted. *)
Lemma puback_round c l ctrl d rest closed :
  d <> [] ->
  Z.of_nat (List.length d) <= MAX_REMAINING ->
  sock c
  = Some (mkSocket (ctrl :: map byte_of (varint 3 (Z.of_nat (List.length d)))
                         ++ d ++ rest) closed) ->
  Z.shiftr (byte_val ctrl) 4 = P_PUBACK ->
  exists c',
    loop_read_body l c
    = (Val (Continue, mkLocals (Some d) (ping_resp l)), c') /\
    sock c' = Some (mkSocket rest closed) /\
    connected c' = connected c /\
    ((exists q1 e q2,
         _pub_queue c = q1 ++ e :: q2 /\
         entry_id e = int_from_bytes d /\
         Forall (fun e' => entry_id e' <> int_from_bytes d) q1 /\
         _pub_queue c' = q1 ++ q2 /\
         trace c' = trace c)
     \/
     (Forall (fun e => entry_id e <> int_from_bytes d) (_pub_queue c) /\
      _pub_queue c' = _pub_queue c /\
      trace c'
      = trace c ++ [EvPrint [PyStr "WTF puback for unknown packet_id:";
                             PyInt (int_from_bytes d)]])).
Proof.
  intros Hne Hmax Hs Htyp.
  rewrite (loop_read_body_packet c l ctrl d rest closed Hne Hmax Hs).
  rewrite (handlers_puback _ (mkLocals (Some d) (ping_resp l)) _ d Htyp
             eq_refl).
  eexists. split; [reflexivity|]. client_simpl.
  destruct (find_ack (int_from_bytes d) (_pub_queue c) 0) as [j|] eqn:E.
  - client_simpl. split; [reflexivity|]. split; [reflexivity|]. left.
    destruct (find_ack_some _ _ _ _ E) as (q1 & e & q2 & Hq & -> & He & Hq1).
    exists q1, e, q2. rewrite Hq. cbn [Nat.add].
    rewrite list_del_middle. auto.
  - client_simpl. split; [reflexivity|]. split; [reflexivity|]. right.
    split; [exact (find_ack_none _ _ _ E)|]. auto.
Qed.

(** C7: a round of the read loop that receives a PUBACK, two bytes of
    packet identifier after the fixed header, completes without raising and
    goes on to the next round.  When the queue of in-flight publishes holds
    an entry with that identifier, the first such entry is removed, the
    entries before and after it stay as they are and in order, and nothing
    is printed; when it holds none, the queue stays as it is and one line is
    printed. *)
Theorem puback_removes_acknowledged (c : Client) (l : locals)
    (ctrl hi lo : byte) (rest : bytes) (closed : bool) :
  sock c = Some (mkSocket (ctrl :: x02%byte :: hi :: lo :: rest) closed) ->
  Z.shiftr (byte_val ctrl) 4 = P_PUBACK ->
  exists c',
    loop_read_body l c
    = (Val (Continue, mkLocals (Some [hi; lo]) (ping_resp l)), c') /\
    sock c' = Some (mkSocket rest closed) /\
    connected c' = connected c /\
    ((exists q1 e q2,
         _pub_queue c = q1 ++ e :: q2 /\
         entry_id e = int_from_bytes [hi; lo] /\
         Forall (fun e' => entry_id e' <> int_from_bytes [hi; lo]) q1 /\
         _pub_queue c' = q1 ++ q2 /\
         trace c' = trace c)
     \/
     (Forall (fun e => entry_id e <> int_from_bytes [hi; lo]) (_pub_queue c) /\
      _pub_queue c' = _pub_queue c /\
      trace c'
      = trace c ++ [EvPrint [PyStr "WTF puback for unknown packet_id:";
                             PyInt (int_from_bytes [hi; lo])]])).
Proof.
  intros Hs Htyp.
  apply (puback_round c l ctrl [hi; lo] rest closed);
    [discriminate | rewrite MAX_REMAINING_eq; cbn; lia | exact Hs
    | exact Htyp].
Qed.

Lemma puback_removes_acknowledged_witness :
  exists c',
    loop_read_body (mkLocals None false)
      (set_pub_queue [(1, 2, []); (2, 2, []); (3, 2, [])]
         (receiving [x40; x02; x00; x02]%byte))
    = (Val (Continue, mkLocals (Some [x00; x02]%byte) false), c') /\
    sock c' = Some (mkSocket [] false) /\
    connected c' = true /\
    ((exists q1 e q2,
         [(1, 2, []); (2, 2, []); (3, 2, [])] = q1 ++ e :: q2 /\
         entry_id e = int_from_bytes [x00; x02]%byte /\
         Forall (fun e' => entry_id e' <> int_from_bytes [x00; x02]%byte) q1 /\
         _pub_queue c' = q1 ++ q2 /\
         trace c' = trace online_client)
     \/
     (Forall (fun e => entry_id e <> int_from_bytes [x00; x02]%byte)
        [(1, 2, []); (2, 2, []); (3, 2, [])] /\
      _pub_queue c' = [(1, 2, []); (2, 2, []); (3, 2, [])] /\
      trace c'
      = trace online_client
          ++ [EvPrint [PyStr "WTF puback for unknown packet_id:";
                       PyInt (int_from_bytes [x00; x02]%byte)]])).
Proof.
  apply (puback_removes_acknowledged
           (set_pub_queue [(1, 2, []); (2, 2, []); (3, 2, [])]
              (receiving [x40; x02; x00; x02]%byte))
           (mkLocals None false) x40%byte x00%byte x02%byte [] false).
  - reflexivity.
  - reflexivity.
Defined.

(** The same at the level of the whole call: with entries 1, 2 and 3 in
    flight and a PUBACK for 2 pending, [loop_read] returns [False] and
    leaves entries 1 and 3. *)
Example loop_read_puback_2_of_3 :
  fst (loop_read
         (set_pub_queue [(1, 2, []); (2, 2, []); (3, 2, [])]
            (receiving [x40; x02; x00; x02]%byte)))
  = Val (Some false) /\
  _pub_queue
    (snd (loop_read
            (set_pub_queue [(1, 2, []); (2, 2, []); (3, 2, [])]
               (receiving [x40; x02; x00; x02]%byte))))
  = [(1, 2, []); (3, 2, [])].
Proof. split; vm_compute; reflexivity. Qed.

(** ** Acknowledgements without a payload *)

(** C10: in a round of the read loop that receives a SUBACK or a PUBACK
    of remaining length 0, the local [data] is not assigned and the handler
    reads it all the same.  When it was never assigned, the round raises a
    NameError.  When it still holds the payload [d] of an earlier packet,
    the round does what it would do had the packet carried [d] itself. *)
Theorem empty_ack_reads_stale_data (c : Client) (pr : bool) (ctrl : byte)
    (d rest : bytes) (closed : bool) :
  sock c = Some (mkSocket (ctrl :: x00%byte :: rest) closed) ->
  Z.shiftr (byte_val ctrl) 4 = P_SUBACK \/ Z.shiftr (byte_val ctrl) 4 = P_PUBACK ->
  d <> [] ->
  Z.of_nat (List.length d) <= MAX_REMAINING ->
  loop_read_body (mkLocals None pr) c
  = (Exn NameError, set_sock (Some (mkSocket rest closed)) c) /\
  loop_read_body (mkLocals (Some d) pr) c
  = loop_read_body (mkLocals (Some d) pr)
      (set_sock
         (Some (mkSocket
                  (ctrl :: map byte_of (varint 3 (Z.of_nat (List.length d)))
                        ++ d ++ rest) closed)) c).
Proof.
  intros Hs Htyp Hne Hmax.
  rewrite !(loop_read_body_empty_packet c _ ctrl rest closed Hs). split.
  - apply handlers_unbound_data; [assumption | reflexivity].
  - rewrite (loop_read_body_packet
               (set_sock
                  (Some (mkSocket
                           (ctrl :: map byte_of
                                      (varint 3 (Z.of_nat (List.length d)))
                                 ++ d ++ rest) closed)) c)
               (mkLocals (Some d) pr) ctrl d rest closed Hne Hmax eq_refl).
    reflexivity.
Qed.

Lemma empty_ack_reads_stale_data_witness :
  loop_read_body (mkLocals None false) (receiving [x40; x00]%byte)
  = (Exn NameError,
     set_sock (Some (mkSocket [] false)) (receiving [x40; x00]%byte)) /\
  loop_read_body (mkLocals (Some [x00; x02]%byte) false)
    (receiving [x40; x00]%byte)
  = loop_read_body (mkLocals (Some [x00; x02]%byte) false)
      (set_sock
         (Some (mkSocket
                  (x40%byte
                     :: map byte_of
                          (varint 3 (Z.of_nat (List.length [x00; x02]%byte)))
                     ++ [x00; x02]%byte ++ []) false))
         (receiving [x40; x00]%byte)).
Proof.
  apply (empty_ack_reads_stale_data (receiving [x40; x00]%byte) false
           x40%byte [x00; x02]%byte [] false).
  - reflexivity.
  - right. reflexivity.
  - discriminate.
  - vm_compute. discriminate.
Defined.

(** An empty PUBACK as the first packet of a call: NameError. *)
Example loop_read_empty_puback_first :
  fst (loop_read (receiving [x40; x00]%byte)) = Exn NameError.
Proof. vm_compute. reflexivity. Qed.

(** An empty PUBACK after a SUBACK with payload 00 01 00: the three stale
    bytes are read as packet identifier 256, and the in-flight entry 256 is
    dropped although no acknowledgement for it arrived. *)
Example loop_read_empty_puback_after_suback :
  fst (loop_read
         (set_pub_queue [(256, 2, [])]
            (receiving [x90; x03; x00; x01; x00; x40; x00]%byte)))
  = Val (Some false) /\
  _pub_queue
    (snd (loop_read
            (set_pub_queue [(256, 2, [])]
               (receiving [x90; x03; x00; x01; x00; x40; x00]%byte))))
  = [].
Proof. split; vm_compute; reflexivity. Qed.

(** ** Other packets *)

(** With only a PINGRESP pending, [loop_read] returns [True]. *)
Example loop_read_pingresp :
  fst (loop_read (receiving [xd0; x00]%byte)) = Val (Some true).
Proof. vm_compute. reflexivity. Qed.

(** With only a packet of the unused type 15 pending, [loop_read] prints
    three lines and returns [False]. *)
Example loop_read_unhandled :
  loop_read (receiving [xf0; x00]%byte)
  = (Val (Some false),
     add_event (EvPrint [PyInt 15])
       (add_event (EvPrint [PyInt 240])
          (add_event (EvPrint [PyStr "Unhandled"]) (receiving [])))).
Proof. vm_compute. reflexivity. Qed.

(** A DISCONNECT, or the broker closing the connection, clears
    [connected] and ends the call. *)
Example loop_read_disconnect :
  fst (loop_read (receiving [xe0; x00; xd0; x00]%byte)) = Val (Some false) /\
  connected (snd (loop_read (receiving [xe0; x00; xd0; x00]%byte))) = false /\
  loop_read (set_sock (Some (mkSocket [] true)) online_client)
  = (Val (Some false),
     set_connected false (set_sock (Some (mkSocket [] true)) online_client)).
Proof. split; [|split]; vm_compute; reflexivity. Qed.

(** ** loop_read always comes back *)






(** * Further properties *)

(** ** Reading a remaining length off the socket *)

Lemma sock_recv1_cases c :
  sock_recv 1 c
  = match sock c with
    | None => (Exn AttributeError, c)
    | Some s =>
        match inbound s with
        | [] => if peer_closed s then (Val [], c) else (Exn OSError, c)
        | b :: tl =>
            (Val [b], set_sock (Some (mkSocket tl (peer_closed s))) c)
        end
    end.
Proof.
  unfold sock_recv, the_sock, bind, get.
  destruct (sock c) as [s|]; cbn [lift ret raise]; [|reflexivity].
  destruct (inbound s) as [|b tl]; [destruct (peer_closed s)|]; reflexivity.
Qed.

Lemma lor_lt_pow2 (a b k : Z) :
  0 <= k -> 0 <= a < 2 ^ k -> 0 <= b < 2 ^ k -> 0 <= Z.lor a b < 2 ^ k.
Proof.
  intros Hk Ha Hb. split; [apply Z.lor_nonneg; lia|].
  destruct (Z.eq_dec a 0) as [->|Ha0]; [rewrite Z.lor_0_l; lia|].
  destruct (Z.eq_dec b 0) as [->|Hb0]; [rewrite Z.lor_0_r; lia|].
  apply Z.log2_lt_pow2; [|rewrite Z.log2_lor by lia].
  - assert (0 <= Z.lor a b) by (apply Z.lor_nonneg; lia).
    assert (Z.lor a b <> 0) by (rewrite Z.lor_eq_0_iff; lia). lia.
  - assert (Z.log2 a < k) by (apply Z.log2_lt_pow2; lia).
    assert (Z.log2 b < k) by (apply Z.log2_lt_pow2; lia). lia.
Qed.

Lemma low7_shifted_range (x i : Z) :
  0 <= i -> 0 <= Z.shiftl (Z.land x 127) (7 * i) < 2 ^ (7 * (i + 1)).
Proof.
  intros Hi. pose proof (land_127_range x) as Hx.
  rewrite Z.shiftl_mul_pow2 by lia.
  replace (7 * (i + 1)) with (7 * i + 7) by lia.
  rewrite Z.pow_add_r by lia. change (2 ^ 7) with 128.
  assert (0 < 2 ^ (7 * i)) by (apply Z.pow_pos_nonneg; lia). nia.
Qed.

Lemma _recv_len_loop_bound n :
  forall i value c v c',
    0 <= i ->
    0 <= value < 2 ^ (7 * i) ->
    _recv_len_loop n i value c = (Val v, c') ->
    0 <= v < 2 ^ (7 * (i + Z.of_nat n)) /\
    (pending c' < pending c)%nat /\
    (pending c <= pending c' + n)%nat /\
    c' = set_sock (sock c') c.
Proof.
  induction n as [|n IH]; intros i value c v c' Hi Hvalue H;
    cbn [_recv_len_loop] in H; [discriminate|].
  unfold bind at 1 in H. rewrite sock_recv1_cases in H.
  destruct (sock c) as [s|] eqn:Hs; [|discriminate].
  destruct (inbound s) as [|b tl] eqn:Hin.
  { destruct (peer_closed s); [|discriminate].
    cbn [unpack1] in H. discriminate. }
  cbn [unpack1] in H. unfold bind at 1 in H. cbn [ret] in H.
  set (c1 := set_sock (Some (mkSocket tl (peer_closed s))) c) in *.
  set (value' := Z.lor value
                   (Z.shiftl (Z.land (byte_val b) 127) (7 * i))) in *.
  assert (Hvalue' : 0 <= value' < 2 ^ (7 * (i + 1))).
  { apply lor_lt_pow2; [lia| |apply low7_shifted_range; lia].
    assert (2 ^ (7 * i) <= 2 ^ (7 * (i + 1)))
      by (apply Z.pow_le_mono_r; lia).
    lia. }
  assert (Hp : pending c = S (pending c1))
    by (unfold c1, pending; client_simpl; rewrite Hs, Hin; reflexivity).
  destruct (Z.land (byte_val b) 128 =? 0).
  - injection H as <- <-.
    assert (2 ^ (7 * (i + 1)) <= 2 ^ (7 * (i + Z.of_nat (S n))))
      by (apply Z.pow_le_mono_r; lia).
    split; [lia|]. split; [lia|]. split; [lia|].
    unfold c1. reflexivity.
  - destruct (IH (i + 1) value' c1 v c' ltac:(lia) Hvalue' H)
      as (Hv & Hlt & Hle & Hc').
    replace (i + 1 + Z.of_nat n) with (i + Z.of_nat (S n)) in Hv by lia.
    split; [lia|]. split; [lia|]. split; [lia|].
    rewrite Hc' at 1. reflexivity.
Qed.

(** X1: whenever [_recv_len] returns, the length it returns lies between 0
    and 268435455, it has taken at least one and at most four bytes off
    the socket, and it has changed nothing else of the client. *)
Theorem recv_len_bounded (c c' : Client) (v : Z) :
  _recv_len c = (Val v, c') ->
  0 <= v <= 268435455 /\
  (pending c' < pending c <= pending c' + 4)%nat /\
  c' = set_sock (sock c') c.
Proof.
  intros H.
  destruct (_recv_len_loop_bound 4 0 0 c v c' ltac:(lia)
              ltac:(cbn; lia) H) as (Hv & Hlt & Hle & Hc').
  change (2 ^ (7 * (0 + Z.of_nat 4))) with 268435456 in Hv.
  split; [lia|]. split; [lia|]. exact Hc'.
Qed.

Lemma recv_len_bounded_witness :
  0 <= 128 <= 268435455 /\
  (pending (receiving [x2a]%byte)
   < pending (receiving [x80; x01; x2a]%byte)
   <= pending (receiving [x2a]%byte) + 4)%nat /\
  receiving [x2a]%byte
  = set_sock (sock (receiving [x2a]%byte))
      (receiving [x80; x01; x2a]%byte).
Proof.
  apply (recv_len_bounded (receiving [x80; x01; x2a]%byte)
           (receiving [x2a]%byte) 128).
  vm_compute. reflexivity.
Defined.

Lemma _recv_len_loop_continue n i value c s b tl :
  sock c = Some s ->
  inbound s = b :: tl ->
  Z.land (byte_val b) 128 <> 0 ->
  _recv_len_loop (S n) i value c
  = _recv_len_loop n (i + 1)
      (Z.lor value (Z.shiftl (Z.land (byte_val b) 127) (7 * i)))
      (set_sock (Some (mkSocket tl (peer_closed s))) c).
Proof.
  intros Hs Hin Hb. cbn [_recv_len_loop].
  rewrite (bind_val _ _ _ _ _ (sock_recv1_spec c s b tl Hs Hin)).
  cbn [unpack1]. unfold bind at 1. cbn [ret].
  replace (Z.land (byte_val b) 128 =? 0) with false by lia. reflexivity.
Qed.

(** X2: when the four bytes that follow the fixed header all have their
    high bit set, [_recv_len] raises [Exception('OH NO')], having taken
    those four bytes and no more off the socket. *)
Theorem recv_len_rejects_overlong (c : Client) (b0 b1 b2 b3 : byte)
    (rest : bytes) (closed : bool) :
  sock c = Some (mkSocket (b0 :: b1 :: b2 :: b3 :: rest) closed) ->
  Z.land (byte_val b0) 128 <> 0 ->
  Z.land (byte_val b1) 128 <> 0 ->
  Z.land (byte_val b2) 128 <> 0 ->
  Z.land (byte_val b3) 128 <> 0 ->
  _recv_len c
  = (Exn (PyException "OH NO"), set_sock (Some (mkSocket rest closed)) c).
Proof.
  intros Hs H0 H1 H2 H3. unfold _recv_len.
  rewrite (_recv_len_loop_continue 3 _ _ c _ b0 _ Hs eq_refl H0).
  cbn [peer_closed].
  set (c1 := set_sock (Some (mkSocket (b1 :: b2 :: b3 :: rest) closed)) c).
  rewrite (_recv_len_loop_continue 2 _ _ c1
             (mkSocket (b1 :: b2 :: b3 :: rest) closed) b1 _
             eq_refl eq_refl H1).
  cbn [peer_closed].
  set (c2 := set_sock (Some (mkSocket (b2 :: b3 :: rest) closed)) c1).
  rewrite (_recv_len_loop_continue 1 _ _ c2
             (mkSocket (b2 :: b3 :: rest) closed) b2 _ eq_refl eq_refl H2).
  cbn [peer_closed].
  set (c3 := set_sock (Some (mkSocket (b3 :: rest) closed)) c2).
  rewrite (_recv_len_loop_continue 0 _ _ c3
             (mkSocket (b3 :: rest) closed) b3 _ eq_refl eq_refl H3).
  reflexivity.
Qed.

Lemma recv_len_rejects_overlong_witness :
  _recv_len (receiving [xff; xff; xff; xff; x7f]%byte)
  = (Exn (PyException "OH NO"),
     set_sock (Some (mkSocket [x7f]%byte false))
       (receiving [xff; xff; xff; xff; x7f]%byte)).
Proof.
  apply (recv_len_rejects_overlong
           (receiving [xff; xff; xff; xff; x7f]%byte)
           xff%byte xff%byte xff%byte xff%byte [x7f]%byte false);
    [reflexivity | vm_compute; discriminate ..].
Defined.

(** ** What every operation keeps *)

Lemma next_packet_id_range (p : Z) : 1 <= next_packet_id p <= 65535.
Proof.
  unfold next_packet_id, py_or, truthy.
  change (Z.land (p + 1) 0xffff) with (Z.land (p + 1) (Z.ones 16)).
  rewrite Z.land_ones by lia. change (2 ^ 16) with 65536.
  pose proof (Z.mod_pos_bound (p + 1) 65536 ltac:(lia)).
  destruct (Z.eqb_spec ((p + 1) mod 65536) 0); cbn [negb]; lia.
Qed.

Lemma list_del_cons {A} (a : A) q i :
  list_del (S i) (a :: q) = a :: list_del i q.
Proof. reflexivity. Qed.

Lemma In_list_del {A} (e : A) q :
  forall i, In e (list_del i q) -> In e q.
Proof.
  induction q as [|a q IH]; intros i H.
  - unfold list_del in H. rewrite firstn_nil, skipn_nil in H. exact H.
  - destruct i as [|i].
    + right. exact H.
    + rewrite list_del_cons in H. destruct H as [H|H]; [left; exact H|].
      right. exact (IH i H).
Qed.


Lemma preserves_sock_recv (R : Client -> Client -> Prop) :
  (forall c, R c c) ->
  (forall s c, R c (set_sock (Some s) c)) ->
  forall n, preserves R (sock_recv n).
Proof.
  intros Hrefl Hsock n c. unfold sock_recv, the_sock, bind, get.
  destruct (sock c) as [s|]; cbn [lift ret raise snd]; [|apply Hrefl].
  destruct (inbound s); [destruct (peer_closed s); apply Hrefl|].
  apply Hsock.
Qed.

Lemma run_step_keeps_well_formed st c :
  well_formed c -> well_formed (run_step st c).
Proof.
  assert (Hrefl : forall c, keeps_well_formed c c) by (intros ? H; exact H).
  assert (Htrans : forall c1 c2 c3,
             keeps_well_formed c1 c2 -> keeps_well_formed c2 c3 ->
             keeps_well_formed c1 c3)
    by (intros ? ? ? H1 H2 H; exact (H2 (H1 H))).
  assert (Hbuf : forall b c,
             List.length b = List.length (_size_buf c) ->
             keeps_well_formed c (set_size_buf b c))
    by (intros b c0 Hb (H1 & H2 & H3); repeat split; client_simpl;
        congruence || assumption || lia).
  assert (Hev : forall e c, keeps_well_formed c (add_event e c))
    by (intros e c0 H; exact H).
  assert (Hdeq : forall i c,
             keeps_well_formed c
               (set_pub_queue (list_del i (_pub_queue c)) c)).
  { intros i c0 (H1 & H2 & H3). split; [exact H1|]. split; [exact H2|].
    client_simpl. rewrite Forall_forall in *. intros e He.
    apply H3. exact (In_list_del _ _ _ He). }
  assert (Hdis : forall c, keeps_well_formed c (set_connected false c))
    by (intros c0 H; exact H).
  assert (Hopen : forall net c, keeps_well_formed c (set_sock (Some net) c))
    by (intros net c0 H; exact H).
  assert (Hrecv : forall n, preserves keeps_well_formed (sock_recv n))
    by (apply preserves_sock_recv; assumption).
  assert (Hadv : forall c,
             keeps_well_formed c
               (set_packet_id (next_packet_id (_packet_id c)) c))
    by (intros c0 (H1 & H2 & H3); split; [exact H1|]; split; [|exact H3];
        apply next_packet_id_range).
  assert (Henq : forall flags pl c,
             keeps_well_formed c
               (set_pub_queue (_pub_queue c ++ [(_packet_id c, flags, pl)])
                  c)).
  { intros flags pl c0 (H1 & H2 & H3). split; [exact H1|].
    split; [exact H2|]. client_simpl. apply Forall_app. split; [exact H3|].
    constructor; [exact H2|constructor]. }
  assert (Hcon : forall c, keeps_well_formed c (set_connected true c))
    by (intros c0 H; exact H).
  assert (Htgt : forall h p k c, keeps_well_formed c (set_target h p k c))
    by (intros h p k c0 H; exact H).
  destruct st; cbn [run_step].
  - apply (preserves_publish keeps_well_formed); assumption.
  - apply (preserves_subscribe keeps_well_formed); assumption.
  - apply (preserves_republish keeps_well_formed); assumption.
  - apply (preserves_ping keeps_well_formed); assumption.
  - apply (preserves_connect keeps_well_formed); assumption.
  - apply (preserves_reconnect keeps_well_formed); assumption.
  - apply (preserves_loop_read keeps_well_formed); assumption.
  - intros H. exact H.
  - intros H. destruct (sock c); exact H.
Qed.

(** X3: whatever methods are called on a new client, in whatever order
    and with whatever arguments and outcomes, and whatever the broker
    sends, the client stays well formed: its size buffer keeps its four
    bytes, and the packet identifier in force and those of the in-flight
    entries stay between 1 and 65535. *)
Theorem steps_keep_well_formed (steps : list step) (cid : string)
    (clean : bool) :
  well_formed (run steps (new_client cid clean)).
Proof.
  assert (H0 : well_formed (new_client cid clean)).
  { split; [reflexivity|]. split; [cbn; lia|constructor]. }
  revert H0. generalize (new_client cid clean). unfold run.
  induction steps as [|st steps IH]; intros c Hc; [exact Hc|].
  cbn [fold_left]. apply IH. apply run_step_keeps_well_formed. exact Hc.
Qed.


(** X5: [reconnect] and [connect], whether the broker accepts or not, keep
    the in-flight queue and the packet identifier in force: what was
    published with qos 1 and not acknowledged is still on record after a
    new connection. *)
Theorem reconnect_keeps_session (c : Client) (net : Socket) (h : string)
    (p k : Z) :
  same_session c (snd (reconnect net c)) /\
  same_session c (snd (connect h p k net c)).
Proof.
  assert (Hrefl : forall c, same_session c c) by (intros; unfold same_session; split; reflexivity).
  assert (Htrans : forall c1 c2 c3,
             same_session c1 c2 -> same_session c2 c3 -> same_session c1 c3)
    by (unfold same_session; intros ? ? ? [A1 A2] [B1 B2]; split;
        congruence).
  assert (Hset : forall s c, same_session c (set_sock (Some s) c))
    by (intros; unfold same_session; split; reflexivity).
  split.
  - apply (preserves_reconnect same_session); try assumption;
      try (intros; unfold same_session; split; reflexivity).
    apply preserves_sock_recv; assumption.
  - apply (preserves_connect same_session); try assumption;
      try (intros; unfold same_session; split; reflexivity).
    apply preserves_sock_recv; assumption.
Qed.

(** ** Publishing with qos 1 and being acknowledged *)

(** X6: on a connected, well-formed client, [publish] with qos 1 returns
    the successor of the identifier in force, which lies between 1 and
    65535, makes it the identifier in force, sends one packet, and appends
    to the in-flight queue one entry made of that identifier, the flags
    [2 | retain] and the very payload it sent. *)
Theorem publish_qos1_enqueues (c : Client) (s : Socket)
    (topic message : string) (retain : Z) :
  sock c = Some s ->
  well_formed c ->
  retain = 0 \/ retain = 1 ->
  Z.of_nat (List.length (encode_utf8 topic)) < 65536 ->
  Z.of_nat (List.length (encode_utf8 topic))
    + Z.of_nat (List.length (encode_utf8 message)) + 4 <= MAX_REMAINING ->
  exists id hdr pl c',
    publish topic message 1 retain c = (Val (PyInt id), c') /\
    id = next_packet_id (_packet_id c) /\
    1 <= id <= 65535 /\
    _packet_id c' = id /\
    trace c' = trace c ++ [EvSend hdr; EvSend pl] /\
    _pub_queue c' = _pub_queue c ++ [(id, Z.lor 2 retain, pl)].
Proof.
  intros Hs (Hbuf & Hid & _) Hretain Htopic Hlen.
  destruct (publish_qos1_spec c s topic message retain Hs Hbuf Hretain Hid
              Htopic) as (c' & Hrun & Hq & Hid' & hdr & Htr).
  { unfold publish_payload. rewrite !length_app. cbn [List.length be2].
    lia. }
  exists (next_packet_id (_packet_id c)), hdr,
    (publish_payload topic message (Some (next_packet_id (_packet_id c)))),
    c'.
  split; [exact Hrun|]. split; [reflexivity|].
  split; [apply next_packet_id_range|]. auto.
Qed.

Lemma publish_qos1_enqueues_witness :
  exists id hdr pl c',
    publish "a/b" "hi" 1 0 online_client = (Val (PyInt id), c') /\
    id = next_packet_id (_packet_id online_client) /\
    1 <= id <= 65535 /\
    _packet_id c' = id /\
    trace c' = trace online_client ++ [EvSend hdr; EvSend pl] /\
    _pub_queue c' = _pub_queue online_client ++ [(id, Z.lor 2 0, pl)].
Proof.
  apply (publish_qos1_enqueues online_client (mkSocket [] false)
           "a/b" "hi" 0).
  - reflexivity.
  - split; [reflexivity|]. split; [vm_compute; split; discriminate|].
    constructor.
  - left. reflexivity.
  - vm_compute. reflexivity.
  - vm_compute. discriminate.
Defined.

Lemma find_ack_last packet_id flags pl q :
  forall i,
    Forall (fun e => entry_id e <> packet_id) q ->
    find_ack packet_id (q ++ [(packet_id, flags, pl)]) i
    = Some (i + List.length q)%nat.
Proof.
  induction q as [|[[p f] b] q IH]; intros i Hq; cbn [app find_ack].
  - rewrite Z.eqb_refl. cbn [List.length]. f_equal. lia.
  - inversion Hq as [|? ? Hp Hq']; subst. cbn [entry_id fst] in Hp.
    replace (packet_id =? p) with false by lia.
    rewrite (IH (S i) Hq'). cbn [List.length]. f_equal. lia.
Qed.

(** X7: [publish] with qos 1 followed by the PUBACK for the identifier it
    returned: when no older in-flight entry carries that identifier, the
    round of the read loop that receives the PUBACK gives back the queue
    as it was before the publish, and prints nothing. *)
Theorem publish_then_puback_restores_queue (c : Client) (s : Socket)
    (topic message : string) (retain : Z) (l : locals) (hi lo : byte)
    (rest : bytes) (closed : bool) :
  sock c = Some s ->
  well_formed c ->
  retain = 0 \/ retain = 1 ->
  Z.of_nat (List.length (encode_utf8 topic)) < 65536 ->
  Z.of_nat (List.length (encode_utf8 topic))
    + Z.of_nat (List.length (encode_utf8 message)) + 4 <= MAX_REMAINING ->
  Forall (fun e => entry_id e <> next_packet_id (_packet_id c))
    (_pub_queue c) ->
  int_from_bytes [hi; lo] = next_packet_id (_packet_id c) ->
  exists c1 c2,
    publish topic message 1 retain c
    = (Val (PyInt (next_packet_id (_packet_id c))), c1) /\
    loop_read_body l
      (set_sock
         (Some (mkSocket (x40 :: x02 :: hi :: lo :: rest)%byte closed)) c1)
    = (Val (Continue, mkLocals (Some [hi; lo]) (ping_resp l)), c2) /\
    _pub_queue c2 = _pub_queue c /\
    trace c2 = trace c1.
Proof.
  intros Hs (Hbuf & Hid & _) Hretain Htopic Hlen Hfresh Hack.
  destruct (publish_qos1_spec c s topic message retain Hs Hbuf Hretain Hid
              Htopic) as (c1 & Hrun & Hq & _ & _).
  { unfold publish_payload. rewrite !length_app. cbn [List.length be2].
    lia. }
  exists c1. eexists. split; [exact Hrun|].
  set (c1' := set_sock _ c1).
  rewrite (loop_read_body_packet c1' l x40%byte [hi; lo] rest closed);
    [| discriminate | rewrite MAX_REMAINING_eq; cbn; lia | reflexivity].
  rewrite (handlers_puback _ (mkLocals (Some [hi; lo]) (ping_resp l))
             (byte_val x40%byte) [hi; lo] eq_refl eq_refl).
  subst c1'. client_simpl. rewrite Hack, Hq.
  rewrite (find_ack_last _ _ _ _ 0%nat Hfresh). cbn [Nat.add].
  rewrite list_del_middle, app_nil_r.
  split; [reflexivity|]. client_simpl. split; reflexivity.
Qed.

Lemma publish_then_puback_restores_queue_witness :
  exists c1 c2,
    publish "a/b" "hi" 1 0 online_client
    = (Val (PyInt (next_packet_id (_packet_id online_client))), c1) /\
    loop_read_body (mkLocals None false)
      (set_sock (Some (mkSocket [x40; x02; x00; x02]%byte false)) c1)
    = (Val (Continue, mkLocals (Some [x00; x02]%byte) false), c2) /\
    _pub_queue c2 = _pub_queue online_client /\
    trace c2 = trace c1.
Proof.
  apply (publish_then_puback_restores_queue online_client
           (mkSocket [] false) "a/b" "hi" 0 (mkLocals None false)
           x00%byte x02%byte [] false).
  - reflexivity.
  - split; [reflexivity|]. split; [vm_compute; split; discriminate|].
    constructor.
  - left. reflexivity.
  - vm_compute. reflexivity.
  - vm_compute. discriminate.
  - constructor.
  - reflexivity.
Defined.

(** ** Inbound PUBLISH packets and the callback *)

Lemma Val_inj {A} (a b : A) : Val a = Val b -> a = b.
Proof. intros H. injection H as H. exact H. Qed.

Lemma remaining_len_val w w' n enc :
  List.length (_size_buf w) = 4%nat ->
  remaining_len n w = (Val enc, w') ->
  n <= MAX_REMAINING /\ enc = map byte_of (varint 3 n).
Proof.
  intros Hbuf H. destruct (Z_le_gt_dec n MAX_REMAINING) as [Hle|Hgt].
  - split; [exact Hle|].
    destruct (remaining_len_ok w n Hbuf Hle) as (buf & _ & Hok).
    rewrite Hok in H. symmetry. exact (Val_inj _ _ (f_equal fst H)).
  - rewrite remaining_len_too_big in H by lia. discriminate.
Qed.

Lemma prints_trace (printed : list (list pyval)) :
  forall c,
    trace (fold_left (fun c args => add_event (EvPrint args) c) printed c)
    = trace c ++ map EvPrint printed.
Proof.
  induction printed as [|args printed IH]; intros c; cbn [fold_left map].
  - rewrite app_nil_r. reflexivity.
  - rewrite IH. client_simpl. rewrite <- app_assoc. reflexivity.
Qed.

Lemma prints_pub_queue (printed : list (list pyval)) :
  forall c,
    _pub_queue
      (fold_left (fun c args => add_event (EvPrint args) c) printed c)
    = _pub_queue c.
Proof.
  induction printed as [|args printed IH]; intros c; [reflexivity|].
  cbn [fold_left]. rewrite IH. reflexivity.
Qed.

Lemma prints_sock (printed : list (list pyval)) :
  forall c,
    sock (fold_left (fun c args => add_event (EvPrint args) c) printed c)
    = sock c.
Proof.
  induction printed as [|args printed IH]; intros c; [reflexivity|].
  cbn [fold_left]. rewrite IH. reflexivity.
Qed.

Lemma call_on_message_returns c msg printed :
  on_message c msg = CbReturn printed ->
  exists c',
    call_on_message msg c = (Val tt, c') /\
    sock c' = sock c /\
    _pub_queue c' = _pub_queue c /\
    trace c' = trace c ++ EvCallback msg :: map EvPrint printed.
Proof.
  intros H. unfold call_on_message, bind, get, modify. rewrite H.
  eexists. split; [reflexivity|].
  rewrite prints_sock, prints_pub_queue, prints_trace.
  client_simpl. rewrite <- app_assoc. auto.
Qed.


(** The PUBLISH handler when the qos in the fixed header is not 1: the
    message is unpacked and handed to the callback. *)
Lemma handlers_publish c l ctrl_pkt d :
  Z.shiftr ctrl_pkt 4 = P_PUBLISH ->
  data l = Some d ->
  Z.land (Z.shiftr ctrl_pkt 1) 3 <> 1 ->
  handlers ctrl_pkt l c
  = bind (call_on_message
            (snd (_unpack_publish d (Z.land ctrl_pkt 1)
                    (Z.land (Z.shiftr ctrl_pkt 1) 3))))
         (fun _ => ret (Continue, l)) c.
Proof.
  intros Htyp Hd Hqos. unfold handlers. rewrite Htyp.
  cbn [P_PUBLISH P_PINGRESP P_SUBACK Z.eqb Pos.eqb].
  unfold read_data. rewrite Hd. cbn [lift].
  unfold bind at 1. cbn [ret].
  destruct (_unpack_publish d (Z.land ctrl_pkt 1)
              (Z.land (Z.shiftr ctrl_pkt 1) 3)) as [pid msg].
  replace (Z.land (Z.shiftr ctrl_pkt 1) 3 =? 1) with false by lia.
  unfold bind at 1. cbn [ret snd]. reflexivity.
Qed.

(** X8: what [publish] with qos 0 sends is what the read loop of a client
    needs to hand the message on: when the two chunks it sent arrive on a
    socket, one round of [loop_read] there calls [on_message] once, with
    [Message(topic, message, 0, retain)], sends nothing, and leaves what
    follows unread. *)
Theorem publish_qos0_loopback (c : Client) (s : Socket)
    (topic message : string) (retain : Z) :
  sock c = Some s ->
  List.length (_size_buf c) = 4%nat ->
  retain = 0 \/ retain = 1 ->
  Z.of_nat (List.length (encode_utf8 topic)) < 65536 ->
  Z.of_nat (List.length (encode_utf8 topic))
    + Z.of_nat (List.length (encode_utf8 message)) + 2 <= MAX_REMAINING ->
  exists hdr pl c',
    publish topic message 0 retain c = (Val PyNone, c') /\
    trace c' = trace c ++ [EvSend hdr; EvSend pl] /\
    forall r l rest closed printed,
      sock r = Some (mkSocket (hdr ++ pl ++ rest) closed) ->
      on_message r (mkMessage topic message 0 retain) = CbReturn printed ->
      exists r',
        loop_read_body l r
        = (Val (Continue, mkLocals (Some pl) (ping_resp l)), r') /\
        sock r' = Some (mkSocket rest closed) /\
        trace r'
        = trace r
            ++ EvCallback (mkMessage topic message 0 retain)
               :: map EvPrint printed.
Proof.
  intros Hs Hbuf Hretain Htopic Hlen.
  set (pl := publish_payload topic message None).
  assert (Hpl : Z.of_nat (List.length pl) <= MAX_REMAINING).
  { unfold pl, publish_payload. rewrite !length_app.
    cbn [List.length be2]. lia. }
  assert (Hne : pl <> []) by (unfold pl, publish_payload; discriminate).
  set (h := Z.lor (Z.shiftl P_PUBLISH 4)
              (sent_flags P_PUBLISH (Z.lor (Z.shiftl 0 1) retain))).
  assert (Hh : h = 48 + retain)
    by (unfold h; destruct Hretain as [->| ->]; reflexivity).
  assert (Hhdr : 0 <= h < 256) by lia.
  destruct (_send_spec c s P_PUBLISH (Z.lor (Z.shiftl 0 1) retain) pl
              Hs Hbuf Hpl Hhdr) as (buf & _ & Hsend).
  fold h in Hsend.
  exists (byte_of h :: map byte_of (varint 3 (Z.of_nat (List.length pl)))),
    pl. eexists.
  split; [|split].
  - unfold publish. rewrite int_to_bytes_2 by lia.
    cbn [lift truthy Z.eqb negb].
    unfold bind at 1. cbn [ret]. unfold bind at 1. cbn [ret].
    unfold pl, publish_payload in Hsend. cbn [app] in Hsend.
    rewrite <- !app_assoc. cbn [app].
    rewrite (bind_val _ _ _ _ _ Hsend). reflexivity.
  - client_simpl. rewrite <- app_assoc. reflexivity.
  - intros r l rest closed printed Hr Hcb.
    cbn [app] in Hr.
    rewrite (loop_read_body_packet r l (byte_of h) pl rest closed Hne Hpl
               Hr).
    rewrite byte_val_of by exact Hhdr.
    set (r1 := set_sock (Some (mkSocket rest closed)) r).
    assert (Hq : Z.land (Z.shiftr h 1) 3 = 0)
      by (rewrite Hh; destruct Hretain as [->| ->]; reflexivity).
    assert (Hr1 : Z.land h 1 = retain)
      by (rewrite Hh; destruct Hretain as [->| ->]; reflexivity).
    destruct (call_on_message_returns r1 _ printed Hcb)
      as (r' & Hcall & Hsock & _ & Htr).
    exists r'.
    assert (Htyp : Z.shiftr h 4 = P_PUBLISH)
      by (rewrite Hh; destruct Hretain as [->| ->]; reflexivity).
    pose proof (handlers_publish r1 (mkLocals (Some pl) (ping_resp l)) h pl
                  Htyp eq_refl ltac:(lia)) as Hh'.
    unfold bytes in Hh' |- *. rewrite Hh'.
    rewrite Hq, Hr1.
    pose proof (_unpack_publish_payload topic message 0 0 retain Htopic)
      as Hun.
    cbn [truthy Z.eqb negb] in Hun. fold pl in Hun. rewrite Hun. cbn [snd].
    rewrite (bind_val _ _ _ _ _ Hcall).
    split; [reflexivity|]. split; [exact Hsock|exact Htr].
Qed.

Lemma publish_qos0_loopback_witness :
  exists hdr pl c',
    publish "a/b" "hi" 0 1 online_client = (Val PyNone, c') /\
    trace c' = trace online_client ++ [EvSend hdr; EvSend pl] /\
    forall r l rest closed printed,
      sock r = Some (mkSocket (hdr ++ pl ++ rest) closed) ->
      on_message r (mkMessage "a/b" "hi" 0 1) = CbReturn printed ->
      exists r',
        loop_read_body l r
        = (Val (Continue, mkLocals (Some pl) (ping_resp l)), r') /\
        sock r' = Some (mkSocket rest closed) /\
        trace r'
        = trace r ++ EvCallback (mkMessage "a/b" "hi" 0 1)
                     :: map EvPrint printed.
Proof.
  apply (publish_qos0_loopback online_client (mkSocket [] false)
           "a/b" "hi" 1).
  - reflexivity.
  - reflexivity.
  - right. reflexivity.
  - vm_compute. reflexivity.
  - vm_compute. discriminate.
Defined.




(** ** Outbound packets *)

(** X10: [republish], given flags below 16, sends the payload it is given
    in a PUBLISH packet whose fixed header carries those flags with the
    duplicate bit, bit 3, set; it touches neither the in-flight queue nor
    the packet identifier. *)
Theorem republish_sets_dup (c : Client) (s : Socket) (flags : Z)
    (pl : bytes) :
  sock c = Some s ->
  List.length (_size_buf c) = 4%nat ->
  0 <= flags < 16 ->
  Z.of_nat (List.length pl) <= MAX_REMAINING ->
  exists hdr len c',
    republish flags pl c = (Val tt, c') /\
    trace c' = trace c ++ [EvSend (hdr :: len); EvSend pl] /\
    Z.shiftr (byte_val hdr) 4 = P_PUBLISH /\
    Z.land (byte_val hdr) 15 = Z.lor flags 8 /\
    Z.testbit (byte_val hdr) 3 = true /\
    _pub_queue c' = _pub_queue c /\
    _packet_id c' = _packet_id c.
Proof.
  intros Hs Hbuf Hflags Hlen. unfold republish.
  assert (Hcases : exists n, (n < 16)%nat /\ flags = Z.of_nat n)
    by (exists (Z.to_nat flags); lia).
  destruct Hcases as (n & Hn & ->).
  assert (Hhdr : 0 <= Z.lor (Z.shiftl P_PUBLISH 4)
                        (sent_flags P_PUBLISH
                           (Z.lor (Z.of_nat n) (Z.shiftl 1 3))) < 256
                 /\ Z.shiftr (Z.lor (Z.shiftl P_PUBLISH 4)
                                (sent_flags P_PUBLISH
                                   (Z.lor (Z.of_nat n) (Z.shiftl 1 3)))) 4
                    = P_PUBLISH
                 /\ Z.land (Z.lor (Z.shiftl P_PUBLISH 4)
                              (sent_flags P_PUBLISH
                                 (Z.lor (Z.of_nat n) (Z.shiftl 1 3)))) 15
                    = Z.lor (Z.of_nat n) 8
                 /\ Z.testbit (Z.lor (Z.shiftl P_PUBLISH 4)
                                 (sent_flags P_PUBLISH
                                    (Z.lor (Z.of_nat n) (Z.shiftl 1 3)))) 3
                    = true).
  { do 16 (destruct n as [|n];
           [vm_compute; split; [split; congruence|auto]|]).
    lia. }
  destruct Hhdr as (Hrange & Htyp & Hlow & Hbit).
  destruct (_send_spec c s P_PUBLISH (Z.lor (Z.of_nat n) (Z.shiftl 1 3)) pl
              Hs Hbuf Hlen Hrange) as (buf & _ & Hsend).
  eexists _, _, _. split; [exact Hsend|]. client_simpl.
  rewrite <- app_assoc. split; [reflexivity|].
  rewrite byte_val_of by exact Hrange. auto.
Qed.

Lemma republish_sets_dup_witness :
  exists hdr len c',
    republish 2 [x00; x01; x61; x00; x02]%byte online_client = (Val tt, c') /\
    trace c'
    = trace online_client
        ++ [EvSend (hdr :: len); EvSend [x00; x01; x61; x00; x02]%byte] /\
    Z.shiftr (byte_val hdr) 4 = P_PUBLISH /\
    Z.land (byte_val hdr) 15 = Z.lor 2 8 /\
    Z.testbit (byte_val hdr) 3 = true /\
    _pub_queue c' = _pub_queue online_client /\
    _packet_id c' = _packet_id online_client.
Proof.
  apply (republish_sets_dup online_client (mkSocket [] false) 2
           [x00; x01; x61; x00; x02]%byte).
  - reflexivity.
  - reflexivity.
  - lia.
  - vm_compute. discriminate.
Defined.

Lemma subscribe_topics_spec topics qos :
  Forall (fun t => Z.of_nat (List.length (encode_utf8 t)) < 65536) topics ->
  0 <= qos < 256 ->
  forall remaining c,
    subscribe_topics topics qos remaining c
    = (Val (remaining
              ++ flat_map (fun t =>
                             be2 (Z.of_nat (List.length (encode_utf8 t)))
                               ++ encode_utf8 t ++ [byte_of qos])
                          topics), c).
Proof.
  intros Htopics Hqos.
  induction topics as [|t topics IH]; intros remaining c;
    cbn [subscribe_topics flat_map].
  - rewrite app_nil_r. reflexivity.
  - inversion Htopics as [|? ? Ht Hrest]; subst.
    rewrite int_to_bytes_2 by lia. cbn [lift].
    unfold bind at 1. cbn [ret]. cbn [mk_bytes].
    rewrite (mk_byte_some qos Hqos). cbn [lift].
    unfold bind at 1. cbn [ret].
    rewrite (IH Hrest). rewrite <- !app_assoc. reflexivity.
Qed.

(** X11: on a connected, well-formed client, [subscribe] with topics
    shorter than 65536 bytes and a qos that fits in a byte returns the
    successor of the identifier in force and sends one SUBSCRIBE packet:
    a fixed header 82, and a payload made of that identifier and, for each
    topic in order, its length on two bytes, its bytes and the qos.
    Nothing is added to the in-flight queue. *)
Theorem subscribe_sends (c : Client) (s : Socket) (topics : list string)
    (qos : Z) :
  sock c = Some s ->
  well_formed c ->
  Forall (fun t => Z.of_nat (List.length (encode_utf8 t)) < 65536) topics ->
  0 <= qos < 256 ->
  Z.of_nat
    (List.length
       (subscribe_payload (next_packet_id (_packet_id c)) topics qos))
  <= MAX_REMAINING ->
  exists len c',
    subscribe topics qos c = (Val (next_packet_id (_packet_id c)), c') /\
    trace c'
    = trace c
        ++ [EvSend (x82%byte :: len);
            EvSend (subscribe_payload (next_packet_id (_packet_id c))
                      topics qos)] /\
    _packet_id c' = next_packet_id (_packet_id c) /\
    _pub_queue c' = _pub_queue c.
Proof.
  intros Hs (Hbuf & _ & _) Htopics Hqos Hlen.
  pose proof (next_packet_id_range (_packet_id c)) as Hid.
  unfold subscribe.
  unfold bind at 1, advance_packet_id at 1, bind at 1, get at 1, modify at 1.
  set (c1 := set_packet_id (next_packet_id (_packet_id c)) c).
  unfold bind at 1, get at 1.
  change (_packet_id c1) with (next_packet_id (_packet_id c)).
  rewrite int_to_bytes_2 by lia. cbn [lift].
  unfold bind at 1. cbn [ret].
  rewrite (bind_val _ _ _ _ _
             (subscribe_topics_spec topics qos Htopics Hqos
                (be2 (next_packet_id (_packet_id c))) c1)).
  fold (subscribe_payload (next_packet_id (_packet_id c)) topics qos).
  destruct (_send_spec c1 s P_SUBSCRIBE 0
              (subscribe_payload (next_packet_id (_packet_id c)) topics qos)
              Hs Hbuf Hlen ltac:(vm_compute; split; congruence))
    as (buf & _ & Hsend).
  rewrite (bind_val _ _ _ _ _ Hsend).
  unfold bind, get, ret. client_simpl.
  eexists _, _. split; [reflexivity|]. client_simpl.
  rewrite <- app_assoc. split; [reflexivity|]. split; reflexivity.
Qed.

Lemma subscribe_sends_witness :
  exists len c',
    subscribe ["a/b"; "c"]%string 1 online_client
    = (Val (next_packet_id (_packet_id online_client)), c') /\
    trace c'
    = trace online_client
        ++ [EvSend (x82%byte :: len);
            EvSend (subscribe_payload
                      (next_packet_id (_packet_id online_client))
                      ["a/b"; "c"]%string 1)] /\
    _packet_id c' = next_packet_id (_packet_id online_client) /\
    _pub_queue c' = _pub_queue online_client.
Proof.
  apply (subscribe_sends online_client (mkSocket [] false)
           ["a/b"; "c"]%string 1).
  - reflexivity.
  - split; [reflexivity|]. split; [vm_compute; split; discriminate|].
    constructor.
  - repeat constructor.
  - lia.
  - vm_compute. discriminate.
Defined.

Lemma subscribe_topics_pure topics qos :
  forall remaining c,
    snd (subscribe_topics topics qos remaining c) = c.
Proof.
  induction topics as [|t topics IH]; intros remaining c;
    cbn [subscribe_topics]; [reflexivity|].
  unfold bind.
  destruct (int_to_bytes _ 2); cbn [lift ret raise snd]; [|reflexivity].
  destruct (mk_bytes [qos]); cbn [lift ret raise snd]; [|reflexivity].
  apply IH.
Qed.

Lemma _send_without_socket c ctrl_typ flags pl :
  sock c = None ->
  exists e, _send ctrl_typ flags pl c = (Exn e, c).
Proof.
  intros Hs. unfold _send.
  destruct (mk_bytes _) as [hdr|]; cbn [lift].
  - exists AttributeError. unfold bind at 1. cbn [ret].
    unfold bind at 1, the_sock at 1, bind at 1, get at 1.
    rewrite Hs. reflexivity.
  - exists ValueError. reflexivity.
Qed.

(** X12: [subscribe] on a client that has no socket yet raises and sends
    nothing, but the packet identifier has been advanced all the same. *)
Theorem subscribe_without_socket (c : Client) (topics : list string)
    (qos : Z) :
  sock c = None ->
  exists e,
    subscribe topics qos c
    = (Exn e, set_packet_id (next_packet_id (_packet_id c)) c).
Proof.
  intros Hs.
  pose proof (next_packet_id_range (_packet_id c)) as Hid.
  unfold subscribe.
  unfold bind at 1, advance_packet_id at 1, bind at 1, get at 1, modify at 1.
  set (c1 := set_packet_id (next_packet_id (_packet_id c)) c).
  unfold bind at 1, get at 1.
  change (_packet_id c1) with (next_packet_id (_packet_id c)).
  rewrite int_to_bytes_2 by lia. cbn [lift].
  unfold bind at 1. cbn [ret].
  pose proof (subscribe_topics_pure topics qos
                (be2 (next_packet_id (_packet_id c))) c1) as Hpure.
  unfold bind at 1.
  destruct (subscribe_topics topics qos
              (be2 (next_packet_id (_packet_id c))) c1) as [[r|e] c2];
    cbn [snd] in Hpure; subst c2; [|exists e; reflexivity].
  destruct (_send_without_socket c1 P_SUBSCRIBE 0 r Hs) as (e & He).
  exists e. rewrite (bind_exn _ _ _ _ _ He). reflexivity.
Qed.

Lemma subscribe_without_socket_witness :
  exists e,
    subscribe ["a/b"%string] 0 (new_client "" true)
    = (Exn e,
       set_packet_id (next_packet_id (_packet_id (new_client "" true)))
         (new_client "" true)).
Proof.
  apply (subscribe_without_socket (new_client "" true) ["a/b"%string] 0).
  reflexivity.
Defined.

(** X13: on a client with a socket, [ping] sends two bytes that form a
    whole PINGREQ packet: a fixed header of type 12 with no flags, and a
    remaining length that [_recv_len] reads as 0.  Nothing else of the
    client changes. *)
Theorem ping_sends_pingreq (c : Client) (s : Socket) :
  sock c = Some s ->
  exists hdr len,
    ping c = (Val tt, add_event (EvSend (hdr :: len)) c) /\
    Z.shiftr (byte_val hdr) 4 = P_PINGREQ /\
    Z.land (byte_val hdr) 15 = 0 /\
    forall d rest closed,
      sock d = Some (mkSocket (len ++ rest) closed) ->
      _recv_len d = (Val 0, set_sock (Some (mkSocket rest closed)) d).
Proof.
  intros Hs. exists xc0%byte, [x00]%byte. split; [|split; [|split]].
  - unfold ping, the_sock, bind, get. cbv beta iota. rewrite Hs.
    reflexivity.
  - reflexivity.
  - reflexivity.
  - intros d rest closed Hd.
    apply (_recv_len_varint d (mkSocket ([x00]%byte ++ rest) closed) 0 rest).
    + rewrite MAX_REMAINING_eq. lia.
    + exact Hd.
    + reflexivity.
Qed.

Lemma ping_sends_pingreq_witness :
  exists hdr len,
    ping online_client
    = (Val tt, add_event (EvSend (hdr :: len)) online_client) /\
    Z.shiftr (byte_val hdr) 4 = P_PINGREQ /\
    Z.land (byte_val hdr) 15 = 0 /\
    forall d rest closed,
      sock d = Some (mkSocket (len ++ rest) closed) ->
      _recv_len d = (Val 0, set_sock (Some (mkSocket rest closed)) d).
Proof.
  apply (ping_sends_pingreq online_client (mkSocket [] false)).
  reflexivity.
Defined.

(** ** The answer to CONNECT *)

(** X14: [reconnect] on a configured client, the broker answering with
    four bytes.  When the first byte is not of type CONNACK the call fails
    on its first assertion and [connected] is as before.  When it is, the
    call returns the low bit of the third byte, the session-present flag,
    if the fourth byte, the return code, is 0, and fails on its second
    assertion otherwise; [connected] is true in both cases. *)
Theorem reconnect_outcomes (c : Client) (h : string) (p k : Z)
    (ack len fl rc : byte) (rest : bytes) (closed : bool) :
  host c = Some h ->
  port c = Some p ->
  keepalive c = Some k ->
  0 <= k < 65536 ->
  Z.of_nat (List.length (encode_utf8 (client_id c))) < 65536 ->
  List.length (_size_buf c) = 4%nat ->
  fst (reconnect (mkSocket (ack :: len :: fl :: rc :: rest) closed) c)
  = (if Z.shiftr (byte_val ack) 4 =? P_CONNACK then
       if byte_val rc =? 0 then Val (Z.land (byte_val fl) 1)
       else Exn AssertionError
     else Exn AssertionError) /\
  connected
    (snd (reconnect (mkSocket (ack :: len :: fl :: rc :: rest) closed) c))
  = (if Z.shiftr (byte_val ack) 4 =? P_CONNACK then true else connected c) /\
  0 <= Z.land (byte_val fl) 1 <= 1.
Proof.
  intros Hh Hp Hk Hkr Hcid Hbuf.
  destruct (reconnect_spec c h p k ack len fl rc rest closed Hh Hp Hk Hkr
              Hcid Hbuf) as (c1 & Hconn & Hrun).
  rewrite Hrun. split; [|split].
  - destruct (Z.shiftr (byte_val ack) 4 =? P_CONNACK); [|reflexivity].
    destruct (byte_val rc =? 0); reflexivity.
  - destruct (Z.shiftr (byte_val ack) 4 =? P_CONNACK); [|exact Hconn].
    destruct (byte_val rc =? 0); reflexivity.
  - change 1 with (Z.ones 1). rewrite Z.land_ones by lia.
    pose proof (Z.mod_pos_bound (byte_val fl) (2 ^ 1) ltac:(lia)).
    change (2 ^ 1) with 2 in *. change (Z.ones 1) with 1. lia.
Qed.

Lemma reconnect_outcomes_witness :
  fst (reconnect (mkSocket [x20; x02; x01; x00; xd0]%byte false)
         online_client)
  = (if Z.shiftr (byte_val x20) 4 =? P_CONNACK then
       if byte_val x00 =? 0 then Val (Z.land (byte_val x01) 1)
       else Exn AssertionError
     else Exn AssertionError) /\
  connected
    (snd (reconnect (mkSocket [x20; x02; x01; x00; xd0]%byte false)
            online_client))
  = (if Z.shiftr (byte_val x20) 4 =? P_CONNACK then true
     else connected online_client) /\
  0 <= Z.land (byte_val x01) 1 <= 1.
Proof.
  apply (reconnect_outcomes online_client "broker" 1883 60
           x20%byte x02%byte x01%byte x00%byte [xd0]%byte false).
  - reflexivity.
  - reflexivity.
  - reflexivity.
  - lia.
  - vm_compute. reflexivity.
  - reflexivity.
Defined.

(** ** Whole calls of loop_read *)

Lemma loop_read_unfold c k :
  keepalive c = Some k ->
  loop_read c = loop_read_loop (S (pending c)) (mkLocals None false) c.
Proof.
  intros Hk. unfold loop_read, bind, get. rewrite Hk. reflexivity.
Qed.

Lemma loop_read_loop_round fuel l c :
  poll_ready c = true ->
  loop_read_loop (S fuel) l c
  = bind (loop_read_body l)
      (fun r =>
         match r with
         | (Continue, l') => loop_read_loop fuel l'
         | (Break, l') => ret (Some (ping_resp l'))
         end) c.
Proof.
  intros Hp. cbn [loop_read_loop]. unfold bind at 1, get at 1.
  rewrite Hp. reflexivity.
Qed.

Lemma loop_read_loop_idle fuel l c :
  poll_ready c = false ->
  loop_read_loop fuel l c = (Val (Some (ping_resp l)), c).
Proof.
  intros Hp. destruct fuel; cbn [loop_read_loop]; unfold bind, get;
    rewrite Hp; reflexivity.
Qed.

(** X15: [loop_read] with nothing pending on the socket returns [False]
    at once.  When the connection is still open the client is left as it
    was; when the broker has closed it, the empty read is caught and
    [connected] is cleared. *)
Theorem loop_read_nothing_pending (c : Client) (k : Z) (closed : bool) :
  keepalive c = Some k ->
  sock c = Some (mkSocket [] closed) ->
  loop_read c
  = (Val (Some false), if closed then set_connected false c else c).
Proof.
  intros Hk Hs. rewrite (loop_read_unfold c k Hk).
  destruct closed.
  - rewrite loop_read_loop_round
      by (unfold poll_ready; rewrite Hs; reflexivity).
    unfold bind at 1, loop_read_body.
    unfold bind at 1. rewrite sock_recv1_cases, Hs. reflexivity.
  - apply loop_read_loop_idle. unfold poll_ready. rewrite Hs. reflexivity.
Qed.

Lemma loop_read_nothing_pending_witness :
  loop_read (set_sock (Some (mkSocket [] true)) online_client)
  = (Val (Some false),
     if true
     then set_connected false
            (set_sock (Some (mkSocket [] true)) online_client)
     else set_sock (Some (mkSocket [] true)) online_client).
Proof.
  apply (loop_read_nothing_pending
           (set_sock (Some (mkSocket [] true)) online_client) 60 true);
    reflexivity.
Defined.


Lemma handlers_pingresp c l ctrl_pkt :
  Z.shiftr ctrl_pkt 4 = P_PINGRESP ->
  handlers ctrl_pkt l c = (Val (Continue, mkLocals (data l) true), c).
Proof.
  intros Htyp. unfold handlers. rewrite Htyp. reflexivity.
Qed.



(** X17: with a PINGRESP and nothing else pending on an open connection,
    [loop_read] returns [True] and changes nothing of the client but the
    socket, now drained. *)
Theorem loop_read_sees_pingresp (c : Client) (k : Z) (ctrl : byte) :
  keepalive c = Some k ->
  sock c = Some (mkSocket [ctrl; x00%byte] false) ->
  Z.shiftr (byte_val ctrl) 4 = P_PINGRESP ->
  loop_read c = (Val (Some true), set_sock (Some (mkSocket [] false)) c).
Proof.
  intros Hk Hs Htyp. rewrite (loop_read_unfold c k Hk).
  rewrite loop_read_loop_round
    by (unfold poll_ready; rewrite Hs; reflexivity).
  unfold bind.
  rewrite (loop_read_body_empty_packet c _ ctrl [] false Hs).
  rewrite (handlers_pingresp _ _ _ Htyp).
  apply loop_read_loop_idle. reflexivity.
Qed.

Lemma loop_read_sees_pingresp_witness :
  loop_read (receiving [xd0; x00]%byte)
  = (Val (Some true),
     set_sock (Some (mkSocket [] false)) (receiving [xd0; x00]%byte)).
Proof.
  apply (loop_read_sees_pingresp (receiving [xd0; x00]%byte) 60 xd0%byte);
    reflexivity.
Defined.

(** ** Packets the client has no use for *)

(** A round of the read loop on a packet whose remaining length is the one
    [remaining_len] writes for its payload, empty or not. *)
Lemma loop_read_body_framed c w w' l ctrl len d rest closed :
  List.length (_size_buf w) = 4%nat ->
  remaining_len (Z.of_nat (List.length d)) w = (Val len, w') ->
  sock c = Some (mkSocket (ctrl :: len ++ d ++ rest) closed) ->
  loop_read_body l c
  = handlers (byte_val ctrl)
      (match d with
       | [] => l
       | _ => mkLocals (Some d) (ping_resp l)
       end)
      (set_sock (Some (mkSocket rest closed)) c).
Proof.
  intros Hw Hlen Hs.
  destruct (remaining_len_val w w' _ len Hw Hlen) as (Hmax & ->).
  destruct d as [|b d].
  - apply (loop_read_body_empty_packet c l ctrl rest closed). exact Hs.
  - apply (loop_read_body_packet c l ctrl (b :: d) rest closed);
      [discriminate | exact Hmax | exact Hs].
Qed.

Lemma handlers_suback c l ctrl_pkt d :
  Z.shiftr ctrl_pkt 4 = P_SUBACK ->
  data l = Some d ->
  handlers ctrl_pkt l c
  = (if Nat.ltb 2 (List.length d) then Val (Continue, l)
     else Exn IndexError, c).
Proof.
  intros Htyp Hd. unfold handlers. rewrite Htyp.
  cbn [P_PINGRESP P_SUBACK Z.eqb Pos.eqb].
  unfold read_data. rewrite Hd. cbn [lift].
  unfold bind at 1. cbn [ret].
  destruct d as [|x [|y [|z d]]]; reflexivity.
Qed.

(** X18: a SUBACK with a payload is read and dropped when the payload has
    at least three bytes: the round goes on to the next packet and the
    client is as before, the socket apart.  With a payload of one or two
    bytes the round raises an IndexError. *)
Theorem suback_round (c w w' : Client) (l : locals) (ctrl : byte)
    (len d rest : bytes) (closed : bool) :
  List.length (_size_buf w) = 4%nat ->
  remaining_len (Z.of_nat (List.length d)) w = (Val len, w') ->
  d <> [] ->
  sock c = Some (mkSocket (ctrl :: len ++ d ++ rest) closed) ->
  Z.shiftr (byte_val ctrl) 4 = P_SUBACK ->
  loop_read_body l c
  = (if Nat.ltb 2 (List.length d)
     then Val (Continue, mkLocals (Some d) (ping_resp l))
     else Exn IndexError,
     set_sock (Some (mkSocket rest closed)) c).
Proof.
  intros Hw Hlen Hne Hs Htyp.
  rewrite (loop_read_body_framed c w w' l ctrl len d rest closed Hw Hlen Hs).
  destruct d as [|b d]; [contradiction|].
  apply handlers_suback; [exact Htyp|reflexivity].
Qed.

Lemma suback_round_witness :
  loop_read_body (mkLocals None false)
    (receiving [x90; x02; x00; x01; xd0; x00]%byte)
  = (if Nat.ltb 2 (List.length [x00; x01]%byte)
     then Val (Continue, mkLocals (Some [x00; x01]%byte) false)
     else Exn IndexError,
     set_sock (Some (mkSocket [xd0; x00]%byte false))
       (receiving [x90; x02; x00; x01; xd0; x00]%byte)).
Proof.
  apply (suback_round (receiving [x90; x02; x00; x01; xd0; x00]%byte)
           online_client (snd (remaining_len 2 online_client))
           (mkLocals None false) x90%byte [x02]%byte [x00; x01]%byte
           [xd0; x00]%byte false).
  - reflexivity.
  - vm_compute. reflexivity.
  - discriminate.
  - reflexivity.
  - reflexivity.
Defined.

Lemma handlers_unhandled c l ctrl_pkt :
  Z.shiftr ctrl_pkt 4 <> P_PINGRESP ->
  Z.shiftr ctrl_pkt 4 <> P_SUBACK ->
  Z.shiftr ctrl_pkt 4 <> P_PUBLISH ->
  Z.shiftr ctrl_pkt 4 <> P_PUBACK ->
  Z.shiftr ctrl_pkt 4 <> P_DISCONNECT ->
  handlers ctrl_pkt l c
  = (Val (Continue, l),
     add_event (EvPrint [PyInt (Z.shiftr ctrl_pkt 4)])
       (add_event (EvPrint [PyInt ctrl_pkt])
          (add_event (EvPrint [PyStr "Unhandled"]) c))).
Proof.
  intros H1 H2 H3 H4 H5. unfold handlers.
  replace (Z.shiftr ctrl_pkt 4 =? P_PINGRESP) with false by lia.
  replace (Z.shiftr ctrl_pkt 4 =? P_SUBACK) with false by lia.
  replace (Z.shiftr ctrl_pkt 4 =? P_PUBLISH) with false by lia.
  replace (Z.shiftr ctrl_pkt 4 =? P_PUBACK) with false by lia.
  replace (Z.shiftr ctrl_pkt 4 =? P_DISCONNECT) with false by lia.
  reflexivity.
Qed.

(** X19: a packet of a type other than PINGRESP, SUBACK, PUBLISH, PUBACK
    and DISCONNECT is taken off the socket with its payload, reported in
    three printed lines, and otherwise ignored: the round does not raise,
    the loop goes on, and queue, identifier and [connected] are as they
    were. *)
Theorem unhandled_packet_is_skipped (c w w' : Client) (l : locals)
    (ctrl : byte) (len d rest : bytes) (closed : bool) :
  List.length (_size_buf w) = 4%nat ->
  remaining_len (Z.of_nat (List.length d)) w = (Val len, w') ->
  sock c = Some (mkSocket (ctrl :: len ++ d ++ rest) closed) ->
  Z.shiftr (byte_val ctrl) 4 <> P_PINGRESP ->
  Z.shiftr (byte_val ctrl) 4 <> P_SUBACK ->
  Z.shiftr (byte_val ctrl) 4 <> P_PUBLISH ->
  Z.shiftr (byte_val ctrl) 4 <> P_PUBACK ->
  Z.shiftr (byte_val ctrl) 4 <> P_DISCONNECT ->
  exists l' c',
    loop_read_body l c = (Val (Continue, l'), c') /\
    ping_resp l' = ping_resp l /\
    sock c' = Some (mkSocket rest closed) /\
    trace c'
    = trace c
        ++ [EvPrint [PyStr "Unhandled"];
            EvPrint [PyInt (byte_val ctrl)];
            EvPrint [PyInt (Z.shiftr (byte_val ctrl) 4)]] /\
    _pub_queue c' = _pub_queue c /\
    _packet_id c' = _packet_id c /\
    connected c' = connected c.
Proof.
  intros Hw Hlen Hs H1 H2 H3 H4 H5.
  rewrite (loop_read_body_framed c w w' l ctrl len d rest closed Hw Hlen Hs).
  rewrite (handlers_unhandled _ _ _ H1 H2 H3 H4 H5).
  eexists _, _. split; [reflexivity|]. client_simpl.
  rewrite <- !app_assoc. cbn [app].
  split; [destruct d; reflexivity|]. auto 10.
Qed.

Lemma unhandled_packet_is_skipped_witness :
  exists l' c',
    loop_read_body (mkLocals None false)
      (receiving [xb0; x02; x00; x07; xd0; x00]%byte)
    = (Val (Continue, l'), c') /\
    ping_resp l' = ping_resp (mkLocals None false) /\
    sock c' = Some (mkSocket [xd0; x00]%byte false) /\
    trace c'
    = trace (receiving [xb0; x02; x00; x07; xd0; x00]%byte)
        ++ [EvPrint [PyStr "Unhandled"];
            EvPrint [PyInt (byte_val xb0)];
            EvPrint [PyInt (Z.shiftr (byte_val xb0) 4)]] /\
    _pub_queue c'
    = _pub_queue (receiving [xb0; x02; x00; x07; xd0; x00]%byte) /\
    _packet_id c'
    = _packet_id (receiving [xb0; x02; x00; x07; xd0; x00]%byte) /\
    connected c'
    = connected (receiving [xb0; x02; x00; x07; xd0; x00]%byte).
Proof.
  apply (unhandled_packet_is_skipped
           (receiving [xb0; x02; x00; x07; xd0; x00]%byte)
           online_client (snd (remaining_len 2 online_client))
           (mkLocals None false) xb0%byte [x02]%byte [x00; x07]%byte
           [xd0; x00]%byte false).
  - reflexivity.
  - vm_compute. reflexivity.
  - reflexivity.
  - vm_compute. discriminate.
  - vm_compute. discriminate.
  - vm_compute. discriminate.
  - vm_compute. discriminate.
  - vm_compute. discriminate.
Defined.
